(** * Gabor texture batch (src/main.py): a shallow embedding

    The script has two functions.  [extraire_texture_gabor] (the Filter
    Step) loads one image, converts it to grayscale, builds a Gabor kernel
    and convolves; [balayer_et_traiter_images] (the Batch Runner) globs a
    directory, sorts the matches and, for each, calls the Filter Step and
    writes the result as a PNG.

    Everything the script does goes through OpenCV, [glob] and [os].  The
    embedding keeps the script's control flow as it is written and runs it in
    a state-and-exception monad over an explicit world (a file system and a
    trace of library calls and console lines).  The pixel arithmetic of
    OpenCV is a field of a [Backend] record; the shape and type rules of the
    OpenCV calls, the POSIX flavour of [os.path], [str.replace], [fnmatch]
    and [sorted] are written out.

    What the model assumes of the libraries:
    - [os.path] is [posixpath]; file names are compared byte by byte;
    - the file system is a finite map from path names to nodes, and a path
      name denotes one node (no links, no second spelling of a path);
    - [glob.glob] takes the directory part of its argument literally;
    - [print] does not raise, and what the libraries raise is an instance of
      [Exception] (an interrupt of the process is outside the model);
    - [cv2.imread], [cv2.cvtColor], [cv2.getGaborKernel] and [cv2.filter2D]
      may raise whenever the backend does; [os.makedirs] raises
      [FileExistsError] on a regular file; [cv2.imwrite] returns [False] on a
      directory and otherwise writes. *)

From Stdlib Require Import ZArith Ascii String Floats.PrimFloat.
From stdpp Require Import gmap strings list sorting.

Local Open Scope string_scope.
Local Open Scope Z_scope.
Local Open Scope list_scope.

(** ** Python strings: the [str] and [os.path] operations the script uses *)

Module Py.

(** [s.startswith(pre)] *)
Fixpoint startswith (pre s : string) : bool :=
  match pre, s with
  | EmptyString, _ => true
  | String a pre', String b s' => Ascii.eqb a b && startswith pre' s'
  | String _ _, EmptyString => false
  end.

(** [s.endswith(c)] for a one-character [c]. *)
Fixpoint endswith_char (c : ascii) (s : string) : bool :=
  match s with
  | EmptyString => false
  | String a EmptyString => Ascii.eqb a c
  | String _ s' => endswith_char c s'
  end.

(** [s.replace(old, new)] for a non-empty [old]: occurrences are found
    from the left and do not overlap.  [skip] counts the characters of a
    match that are still to be dropped. *)
Fixpoint replace_from (old new : string) (skip : nat) (s : string) : string :=
  match s with
  | EmptyString => EmptyString
  | String c s' =>
      match skip with
      | S k => replace_from old new k s'
      | O =>
          if startswith old s
          then new +:+ replace_from old new (Nat.pred (String.length old)) s'
          else String c (replace_from old new 0 s')
      end
  end.

Definition replace (s old new : string) : string := replace_from old new 0 s.

(** [s.rstrip(c)] for a one-character [c]. *)
Fixpoint rstrip_char (c : ascii) (s : string) : string :=
  match s with
  | EmptyString => EmptyString
  | String a s' =>
      match rstrip_char c s' with
      | EmptyString => if Ascii.eqb a c then EmptyString else String a EmptyString
      | r => String a r
      end
  end.

End Py.

(** [os.path] on a POSIX system ([posixpath]). *)
Module os_path.

Definition sep : ascii := "/"%char.

(** [(p[:i], p[i:])] with [i = p.rfind('/') + 1]. *)
Fixpoint cut_at_last_sep (p : string) : string * string :=
  match p with
  | EmptyString => (EmptyString, EmptyString)
  | String c p' =>
      match cut_at_last_sep p' with
      | (EmptyString, t) =>
          if Ascii.eqb c sep then (String c EmptyString, t) else (EmptyString, String c t)
      | (h, t) => (String c h, t)
      end
  end.

Definition basename (p : string) : string := snd (cut_at_last_sep p).

Fixpoint all_sep (s : string) : bool :=
  match s with
  | EmptyString => true
  | String c s' => Ascii.eqb c sep && all_sep s'
  end.

(** [os.path.split]: the head loses its trailing separators unless it is
    made of separators only. *)
Definition split (p : string) : string * string :=
  let (head, tail) := cut_at_last_sep p in
  (if all_sep head then head else Py.rstrip_char sep head, tail).

(** [os.path.join(a, b)] *)
Definition join (a b : string) : string :=
  if Py.startswith "/" b then b
  else if (String.length a =? 0)%nat || Py.endswith_char sep a then a +:+ b
  else a +:+ "/" +:+ b.

End os_path.

(** [fnmatch] for patterns made of literal characters, [*] and [?] (the
    script's pattern has no bracket class), on a case-sensitive system. *)
Fixpoint fnmatch (pat name : string) : bool :=
  match pat with
  | EmptyString => match name with EmptyString => true | _ => false end
  | String p pat' =>
      if Ascii.eqb p "*" then
        (fix star (n : string) : bool :=
           fnmatch pat' n
           || match n with EmptyString => false | String _ n' => star n' end) name
      else
        match name with
        | EmptyString => false
        | String c name' => (Ascii.eqb p "?" || Ascii.eqb p c) && fnmatch pat' name'
        end
  end.

(** [sorted] on a list of [str]: ascending code-point order.  On UTF-8 bytes
    that is the byte-wise order [String.le]. *)
Definition sorted (l : list string) : list string := merge_sort String.le l.

(** ** Exceptions, results and the world *)

(** The exceptions the model can raise.  All are subclasses of Python's
    [Exception], which is what the Filter Step's [except Exception] catches. *)
Inductive exn :=
| cv2_error (msg : string)
| FileExistsError (path : string)
| MemoryError.

Inductive res (A : Type) :=
| Ok (a : A)
| Raise (e : exn).
Arguments Ok {A} a.
Arguments Raise {A} e.

(** A [numpy] array as OpenCV sees it: a [Mat] header and its samples. *)
Record Mat := mkMat {
  rows : Z;
  cols : Z;
  mtype : Z;          (* OpenCV type code: depth + ((channels - 1) << 3) *)
  data : list Z
}.

(** A convolution kernel: real coefficients. *)
Record Kernel := mkKernel {
  krows : Z;
  kcols : Z;
  ktype : Z;
  coeffs : list float
}.

(** The lines the script prints, one constructor per [print] call.
    - [MsgLoadError p]: "Erreur: Impossible de charger l'image {p}. ..."
    - [MsgException p e]: "Une erreur est survenue lors du traitement de {p}: {e}"
    - [MsgNoImage root]: "Aucune image '.ppm' trouvee dans le repertoire: {root}"
    - [MsgStart n]: "Demarrage du traitement de {n} images..."
    - [MsgExtracted nom shape]: "Texture extraite de **{nom}** (forme: {shape})"
    - [MsgSaved p]: "Image de texture enregistree: {p}"
    - [MsgDone]: "Traitement termine." *)
Inductive message :=
| MsgLoadError (image_path : string)
| MsgException (image_path : string) (e : exn)
| MsgNoImage (repertoire_racine : string)
| MsgStart (n : nat)
| MsgExtracted (nom_fichier : string) (shape : list Z)
| MsgSaved (path : string)
| MsgDone.

(** What the script does to its environment, in order. *)
Inductive event :=
| EvPrint (m : message)
| EvGlob (pathname : string)
| EvImread (filename : string)
| EvCvtColor (src : Mat) (code : Z)
| EvGetGaborKernel (ksize : Z * Z) (sigma theta lambd gamma psi : float) (ktype : Z)
| EvFilter2D (src : Mat) (ddepth : Z) (kernel : Kernel)
| EvMakedirs (name : string) (exist_ok : bool)
| EvImwrite (filename : string) (img : Mat).

(** The file system: path names to nodes.  The directory tree is implicit in
    the names: the children of [d] are the entries named [join d n] for a
    name [n] without separator. *)
Inductive node :=
| Dir
| File (content : list Byte.byte).

Record world := mkWorld {
  fs : gmap string node;
  trace : list event
}.

(** ** A state and exception monad over the world *)

Definition M (A : Type) : Type := world → res A * world.

Definition ret {A} (a : A) : M A := λ w, (Ok a, w).

Definition bind {A B} (m : M A) (k : A → M B) : M B :=
  λ w, match m w with
       | (Ok a, w') => k a w'
       | (Raise e, w') => (Raise e, w')
       end.

Definition raise {A} (e : exn) : M A := λ w, (Raise e, w).

(** [try: body except Exception as e: handler(e)] *)
Definition try_except {A} (body : M A) (handler : exn → M A) : M A :=
  λ w, match body w with
       | (Ok a, w') => (Ok a, w')
       | (Raise e, w') => handler e w'
       end.

Definition emit (ev : event) : M unit :=
  λ w, (Ok tt, mkWorld (fs w) (trace w ++ [ev])).

Definition lift_res {A} (r : res A) : M A := λ w, (r, w).

Definition read_fs : M (gmap string node) := λ w, (Ok (fs w), w).

Definition write_fs (f : gmap string node) : M unit := λ w, (Ok tt, mkWorld f (trace w)).

Declare Scope py_scope.
Delimit Scope py_scope with py.
Notation "x <- c1 ;; c2" := (bind c1 (λ x, c2))
  (at level 100, c1 at next level, right associativity) : py_scope.
Notation "c1 ;; c2" := (bind c1 (λ _, c2))
  (at level 100, right associativity) : py_scope.
Local Open Scope py_scope.

(** [for x in l: body(x)] *)
Fixpoint for_each {A} (l : list A) (body : A → M unit) : M unit :=
  match l with
  | [] => ret tt
  | x :: l' => body x ;; for_each l' body
  end.

Definition print (m : message) : M unit := emit (EvPrint m).

(** ** OpenCV: type codes, and the calls the script makes *)

Module cv2.

Definition CV_8U : Z := 0.
Definition CV_16U : Z := 2.
Definition CV_16S : Z := 3.
Definition CV_32F : Z := 5.
Definition CV_64F : Z := 6.
Definition CV_CN_SHIFT : Z := 3.
Definition CV_MAT_DEPTH_MASK : Z := 7.
Definition CV_MAT_CN_MASK : Z := Z.shiftl 511 CV_CN_SHIFT.

Definition CV_MAT_DEPTH (flags : Z) : Z := Z.land flags CV_MAT_DEPTH_MASK.

Definition CV_MAT_CN (flags : Z) : Z :=
  Z.shiftr (Z.land flags CV_MAT_CN_MASK) CV_CN_SHIFT + 1.

Definition CV_MAKETYPE (depth cn : Z) : Z :=
  CV_MAT_DEPTH depth + Z.shiftl (cn - 1) CV_CN_SHIFT.

Definition CV_8UC1 : Z := CV_MAKETYPE CV_8U 1.
Definition CV_8UC3 : Z := CV_MAKETYPE CV_8U 3.
Definition COLOR_BGR2GRAY : Z := 6.

Definition depth (m : Mat) : Z := CV_MAT_DEPTH (mtype m).
Definition channels (m : Mat) : Z := CV_MAT_CN (mtype m).
Definition empty (m : Mat) : bool := (rows m <=? 0) || (cols m <=? 0).
Definition kernel_empty (k : Kernel) : bool := (krows k <=? 0) || (kcols k <=? 0).

(** [img.shape] of the [numpy] array. *)
Definition shape (m : Mat) : list Z :=
  if channels m =? 1 then [rows m; cols m] else [rows m; cols m; channels m].

(** The source and destination depths the linear filter engine has a
    kernel for. *)
Definition filter_supported (sdepth ddepth : Z) : bool :=
  if sdepth =? CV_8U then
    (ddepth =? CV_8U) || (ddepth =? CV_16U) || (ddepth =? CV_16S)
    || (ddepth =? CV_32F) || (ddepth =? CV_64F)
  else if (sdepth =? CV_16U) || (sdepth =? CV_16S) then
    (ddepth =? sdepth) || (ddepth =? CV_32F) || (ddepth =? CV_64F)
  else if sdepth =? CV_32F then ddepth =? CV_32F
  else if sdepth =? CV_64F then ddepth =? CV_64F
  else false.

End cv2.

(** What the model takes from outside: the decoder, the pixel arithmetic and
    the encoder of OpenCV (each may raise), and the order in which the
    operating system lists a directory. *)
Record Backend := mkBackend {
  imdecode : list Byte.byte → res (option (Z * Z * list Z));
  bgr2gray : Mat → res (list Z);
  gabor : Z * Z → float → float → float → float → float → Z → res Kernel;
  correlate : Mat → Z → Kernel → res (list Z);
  imencode_png : Mat → list Byte.byte;
  scandir_order : list string → list string;
  scandir_order_perm : ∀ l, scandir_order l ≡ₚ l
}.

Section Script.

Context (B : Backend).

(** [cv2.imread(filename)] with the default flag [IMREAD_COLOR]: [None] when
    the file is missing, is a directory or cannot be decoded, otherwise a
    3-channel 8-bit image. *)
Definition imread_result (f : gmap string node) (filename : string) : res (option Mat) :=
  match f !! filename with
  | Some (File content) =>
      match imdecode B content with
      | Ok (Some (r, c, d)) =>
          if (r <=? 0) || (c <=? 0) then Ok None
          else Ok (Some (mkMat r c cv2.CV_8UC3 d))
      | Ok None => Ok None
      | Raise e => Raise e
      end
  | _ => Ok None
  end.

Definition cv2_imread (filename : string) : M (option Mat) :=
  emit (EvImread filename) ;;
  f <- read_fs ;;
  lift_res (imread_result f filename).

(** [cv2.cvtColor(src, cv2.COLOR_BGR2GRAY)]: the source has 3 or 4 channels
    and depth 8U, 16U or 32F; the result has the size and depth of the
    source and one channel. *)
Definition cvtColor_BGR2GRAY_result (src : Mat) : res Mat :=
  if cv2.empty src then Raise (cv2_error "(-215:Assertion failed) !_src.empty()")
  else if negb ((cv2.channels src =? 3) || (cv2.channels src =? 4)) then
    Raise (cv2_error "Invalid number of channels in input image")
  else if negb ((cv2.depth src =? cv2.CV_8U) || (cv2.depth src =? cv2.CV_16U)
                || (cv2.depth src =? cv2.CV_32F)) then
    Raise (cv2_error "Unsupported depth of input image")
  else
    match bgr2gray B src with
    | Ok d => Ok (mkMat (rows src) (cols src) (cv2.CV_MAKETYPE (cv2.depth src) 1) d)
    | Raise e => Raise e
    end.

Definition cv2_cvtColor_BGR2GRAY (src : Mat) : M Mat :=
  emit (EvCvtColor src cv2.COLOR_BGR2GRAY) ;;
  lift_res (cvtColor_BGR2GRAY_result src).

(** [cv2.getGaborKernel(ksize, sigma, theta, lambd, gamma, psi, ktype)] *)
Definition getGaborKernel_result (ksize : Z * Z) (sigma theta lambd gamma psi : float)
    (ktype : Z) : res Kernel :=
  if negb ((ktype =? cv2.CV_32F) || (ktype =? cv2.CV_64F)) then
    Raise (cv2_error "(-215:Assertion failed) ktype == CV_32F || ktype == CV_64F")
  else gabor B ksize sigma theta lambd gamma psi ktype.

Definition cv2_getGaborKernel (ksize : Z * Z) (sigma theta lambd gamma psi : float)
    (ktype : Z) : M Kernel :=
  emit (EvGetGaborKernel ksize sigma theta lambd gamma psi ktype) ;;
  lift_res (getGaborKernel_result ksize sigma theta lambd gamma psi ktype).

(** [cv2.filter2D(src, ddepth, kernel)]: the destination has the size of the
    source and the type [CV_MAKETYPE(ddepth, src.channels())]; only the depth
    bits of [ddepth] take part. *)
Definition filter2D_result (src : Mat) (ddepth : Z) (kernel : Kernel) : res Mat :=
  if cv2.empty src then Raise (cv2_error "(-215:Assertion failed) !_src.empty()")
  else if cv2.kernel_empty kernel then
    Raise (cv2_error "(-215:Assertion failed) !_kernel.empty()")
  else
    let ddepth := if ddepth <? 0 then cv2.depth src else ddepth in
    let dtype := cv2.CV_MAKETYPE ddepth (cv2.channels src) in
    if cv2.filter_supported (cv2.depth src) (cv2.CV_MAT_DEPTH dtype) then
      match correlate B src dtype kernel with
      | Ok d => Ok (mkMat (rows src) (cols src) dtype d)
      | Raise e => Raise e
      end
    else Raise (cv2_error "Unsupported combination of source format and destination format").

Definition cv2_filter2D (src : Mat) (ddepth : Z) (kernel : Kernel) : M Mat :=
  emit (EvFilter2D src ddepth kernel) ;;
  lift_res (filter2D_result src ddepth kernel).

(** [cv2.imwrite(filename, img)]: returns [False], and writes nothing, when
    the file cannot be opened for writing (here: the name is a directory). *)
Definition cv2_imwrite (filename : string) (img : Mat) : M bool :=
  emit (EvImwrite filename img) ;;
  f <- read_fs ;;
  match f !! filename with
  | Some Dir => ret false
  | _ => write_fs (<[filename := File (imencode_png B img)]> f) ;; ret true
  end.

(** [os.makedirs(name, exist_ok=...)]: [FileExistsError] when the name
    exists and is not a directory, or is one and [exist_ok] is false. *)
Definition os_makedirs (name : string) (exist_ok : bool) : M unit :=
  emit (EvMakedirs name exist_ok) ;;
  f <- read_fs ;;
  match f !! name with
  | None => write_fs (<[name := Dir]> f)
  | Some Dir => if exist_ok then ret tt else raise (FileExistsError name)
  | Some (File _) => raise (FileExistsError name)
  end.

(** [glob.glob(pathname)] for a [pathname] whose directory part is literal
    and whose last component is a pattern: the entries of the directory whose
    name matches, each joined to the directory, in the order the system lists
    them.  Names starting with a dot are left out unless the pattern starts
    with one. *)
Definition ishidden (name : string) : bool := Py.startswith "." name.

Definition is_entry_of (dirname k : string) : bool :=
  let name := os_path.basename k in
  negb (String.eqb name "") && String.eqb k (os_path.join dirname name).

Definition glob_select (dirname pat k : string) : bool :=
  let name := os_path.basename k in
  is_entry_of dirname k && (negb (ishidden name) || ishidden pat) && fnmatch pat name.

Definition glob_result (f : gmap string node) (pathname : string) : list string :=
  let (dirname, pat) := os_path.split pathname in
  scandir_order B (List.filter (glob_select dirname pat) (map_to_list f).*1).

Definition glob_glob (pathname : string) : M (list string) :=
  emit (EvGlob pathname) ;;
  f <- read_fs ;;
  ret (glob_result f pathname).

(** ** The script *)

Definition np_pi : float := 0x1.921fb54442d18p+1%float.

(** The psi argument: the script passes the integer [0]. *)
Definition psi0 : float := 0%float.

(** [extraire_texture_gabor(image_path, ksize, sigma, theta, lambd, gamma)].
    The defaults of the signature ([ksize=31, sigma=4.0, theta=np.pi / 4,
    lambd=10.0, gamma=0.5]) are never used: the one caller passes all five. *)
Definition extraire_texture_gabor (image_path : string) (ksize : Z)
    (sigma theta lambd gamma : float) : M (string * option Mat) :=
  try_except
    (img <- cv2_imread image_path ;;
     match img with
     | None =>
         print (MsgLoadError image_path) ;;
         ret (os_path.basename image_path, None)
     | Some img =>
         gray <- cv2_cvtColor_BGR2GRAY img ;;
         kernel <- cv2_getGaborKernel (ksize, ksize) sigma theta lambd gamma psi0 cv2.CV_32F ;;
         filtered_image <- cv2_filter2D gray cv2.CV_8UC3 kernel ;;
         ret (os_path.basename image_path, Some filtered_image)
     end)
    (λ e,
       print (MsgException image_path e) ;;
       ret (os_path.basename image_path, None)).

(** The dictionary [gabor_params] of the runner. *)
Record gabor_params_t := mkGaborParams {
  gp_ksize : Z;
  gp_sigma : float;
  gp_theta : float;
  gp_lambd : float;
  gp_gamma : float
}.

Definition gabor_params : gabor_params_t :=
  {| gp_ksize := 31;
     gp_sigma := 5.0%float;
     gp_theta := (np_pi / 4)%float;
     gp_lambd := 10.0%float;
     gp_gamma := 0.5%float |}.

(** [f"texture_{nom_fichier.replace('.ppm', '.png')}"] *)
Definition nom_sortie (nom_fichier : string) : string :=
  "texture_" +:+ Py.replace nom_fichier ".ppm" ".png".

Definition repertoire_sortie (repertoire_racine : string) : string :=
  os_path.join repertoire_racine "textures_traitees".

(** The body of the runner's [for] loop. *)
Definition traiter_image (repertoire_racine image_path : string) : M unit :=
  r <- extraire_texture_gabor image_path (gp_ksize gabor_params) (gp_sigma gabor_params)
         (gp_theta gabor_params) (gp_lambd gabor_params) (gp_gamma gabor_params) ;;
  let '(nom_fichier, texture_image) := r in
  match texture_image with
  | Some texture_image =>
      print (MsgExtracted nom_fichier (cv2.shape texture_image)) ;;
      os_makedirs (repertoire_sortie repertoire_racine) true ;;
      cv2_imwrite (os_path.join (repertoire_sortie repertoire_racine) (nom_sortie nom_fichier))
        texture_image ;;
      print (MsgSaved (os_path.join (repertoire_sortie repertoire_racine) (nom_sortie nom_fichier)))
  | None => ret tt
  end.

(** [balayer_et_traiter_images(repertoire_racine)] *)
Definition balayer_et_traiter_images (repertoire_racine : string) : M unit :=
  let chemin_recherche := os_path.join repertoire_racine "frag_eroded_*.ppm" in
  g <- glob_glob chemin_recherche ;;
  let image_files := sorted g in
  match image_files with
  | [] => print (MsgNoImage repertoire_racine)
  | _ =>
      print (MsgStart (length image_files)) ;;
      for_each image_files (traiter_image repertoire_racine) ;;
      print MsgDone
  end.

(** The module-level constant and the call that ends the script. *)
Definition REPERTOIRE_IMAGES : string :=
  "C:\Users\aliam\OneDrive\Desktop\6fresques_et\6fresques_et\Lanzani_SantAntonioproteggePavia_2440x2524\frag_eroded".

Definition main : M unit := balayer_et_traiter_images REPERTOIRE_IMAGES.

End Script.

(** ** A small backend and a few directories to run the script on *)

Module Demo.

Import Byte.

Definition sample (b : Byte.byte) : Z := Z.of_N (Byte.to_N b).

Definition unsample (z : Z) : Byte.byte :=
  default x00 (Byte.of_N (Z.to_N (z mod 256))).

(** "P6" starts a readable 1 x 1 image whose three samples follow; "!"
    makes the decoder raise; anything else is not an image. *)
Definition decode (content : list Byte.byte) : res (option (Z * Z * list Z)) :=
  match content with
  | x50 :: x36 :: b :: g :: r :: _ => Ok (Some (1, 1, [sample b; sample g; sample r]))
  | x21 :: _ => Raise MemoryError
  | _ => Ok None
  end.

(** Blue sample 1 makes the conversion raise. *)
Definition gray (m : Mat) : res (list Z) :=
  match data m with
  | [b; g; r] => if b =? 1 then Raise (cv2_error "cvtColor") else Ok [(b + g + r) / 3]
  | _ => Raise (cv2_error "cvtColor")
  end.

Definition kernel (ksize : Z * Z) (sigma theta lambd gamma psi : float) (ktype : Z)
    : res Kernel :=
  Ok (mkKernel (fst ksize) (snd ksize) ktype [sigma; theta; lambd; gamma; psi]).

(** Gray sample 2 makes the convolution raise. *)
Definition convolve (m : Mat) (dtype : Z) (k : Kernel) : res (list Z) :=
  match data m with
  | [v] => if v =? 2 then Raise MemoryError else Ok [255 - v]
  | _ => Ok []
  end.

Definition encode (m : Mat) : list Byte.byte :=
  [x89; x50; x4e; x47] ++ map unsample (data m).

Definition backend : Backend :=
  mkBackend decode gray kernel convolve encode reverse reverse_Permutation.

(** The same backend on a system that lists directories in the other order. *)
Definition backend' : Backend :=
  mkBackend decode gray kernel convolve encode id (λ l, reflexivity l).

Definition ppm (b g r : Byte.byte) : node := File [x50; x36; b; g; r].
Definition junk : node := File [x00; x01].

(** Three fragments, the second one corrupt. *)
Definition fs3 : gmap string node :=
  <["d/frag_eroded_0007.ppm" := ppm x0a x14 x1e]>
  (<["d/frag_eroded_0003.ppm" := junk]>
  (<["d/frag_eroded_0010.ppm" := ppm x28 x32 x3c]>
  (<["d/notes.txt" := junk]>
  (<["d" := Dir]> ∅)))).

(** The same, with a regular file where the output directory should go. *)
Definition fs_blocked : gmap string node :=
  <["d/textures_traitees" := junk]> fs3.

(** Only unreadable fragments. *)
Definition fs_bad : gmap string node :=
  <["d/frag_eroded_0001.ppm" := junk]>
  (<["d/frag_eroded_0002.ppm" := File [x21]]>
  (<["d/frag_eroded_0003.ppm" := ppm x01 x00 x00]>
  (<["d/frag_eroded_0004.ppm" := ppm x02 x02 x02]>
  (<["d" := Dir]> ∅)))).

(** No fragment at all. *)
Definition fs_none : gmap string node :=
  <["d/notes.txt" := junk]> (<["d/frag_eroded_1.png" := junk]> (<["d" := Dir]> ∅)).

(** Two fragments whose names give the same output name. *)
Definition fs_clash : gmap string node :=
  <["d/frag_eroded_a.ppm.ppm" := ppm x0a x14 x1e]>
  (<["d/frag_eroded_a.png.ppm" := ppm x28 x32 x3c]> (<["d" := Dir]> ∅)).

(** Two readable fragments. *)
Definition fs_good : gmap string node :=
  <["d/frag_eroded_0001.ppm" := ppm x0a x14 x1e]>
  (<["d/frag_eroded_0002.ppm" := ppm x28 x32 x3c]> (<["d" := Dir]> ∅)).

(** The sample directory with a directory standing at one output path. *)
Definition fs_dir_at_output : gmap string node :=
  <["d/textures_traitees/texture_frag_eroded_0007.png" := Dir]> fs3.

Definition run (b : Backend) (f : gmap string node) : res unit * world :=
  balayer_et_traiter_images b "d" (mkWorld f []).

(** The Filter Step on one path, with the runner's parameters. *)
Definition step (f : gmap string node) (image_path : string) : res (string * option Mat) * world :=
  extraire_texture_gabor backend image_path 31 5.0%float (np_pi / 4)%float 10.0%float 0.5%float
    (mkWorld f []).

Definition out7 : Mat := mkMat 1 1 cv2.CV_8UC1 [235].

End Demo.

(** ** Auxiliary definitions for the statements *)

(** No separator in the name. *)
Fixpoint no_sep (s : string) : bool :=
  match s with
  | EmptyString => true
  | String c s' => negb (Ascii.eqb c os_path.sep) && no_sep s'
  end.


(** The runner's glob pattern and the names it selects. *)
Definition motif : string := "frag_eroded_*.ppm".

Definition is_input (k : string) : bool := fnmatch motif (os_path.basename k).

Section Reference.

Context (B : Backend).

(** The Filter Step seen from outside: its second result and the events it
    adds, as functions of the file system it runs on. *)
Definition filter_value (f : gmap string node) (image_path : string) (ksize : Z)
    (sigma theta lambd gamma : float) : option Mat :=
  match fst (extraire_texture_gabor B image_path ksize sigma theta lambd gamma (mkWorld f [])) with
  | Ok (_, t) => t
  | Raise _ => None
  end.

Definition filter_trace (f : gmap string node) (image_path : string) (ksize : Z)
    (sigma theta lambd gamma : float) : list event :=
  trace (snd (extraire_texture_gabor B image_path ksize sigma theta lambd gamma (mkWorld f []))).

(** The same with the runner's parameters. *)
Definition texture (f : gmap string node) (image_path : string) : option Mat :=
  filter_value f image_path (gp_ksize gabor_params) (gp_sigma gabor_params)
    (gp_theta gabor_params) (gp_lambd gabor_params) (gp_gamma gabor_params).

Definition texture_trace (f : gmap string node) (image_path : string) : list event :=
  filter_trace f image_path (gp_ksize gabor_params) (gp_sigma gabor_params)
    (gp_theta gabor_params) (gp_lambd gabor_params) (gp_gamma gabor_params).

(** The path the runner writes the texture of [image_path] to. *)
Definition chemin_sortie (repertoire_racine image_path : string) : string :=
  os_path.join (repertoire_sortie repertoire_racine) (nom_sortie (os_path.basename image_path)).

(** The runner's list [image_files] on a file system. *)
Definition image_files (f : gmap string node) (repertoire_racine : string) : list string :=
  sorted (glob_result B f (os_path.join repertoire_racine motif)).

End Reference.

(** Projections of a trace. *)
Definition imread_calls (tr : list event) : list string :=
  omap (λ ev, match ev with EvImread p => Some p | _ => None end) tr.

Definition imwrite_calls (tr : list event) : list string :=
  omap (λ ev, match ev with EvImwrite p _ => Some p | _ => None end) tr.

Definition makedirs_calls (tr : list event) : list string :=
  omap (λ ev, match ev with EvMakedirs p _ => Some p | _ => None end) tr.

Definition gabor_calls (tr : list event) : list event :=
  List.filter (λ ev, match ev with EvGetGaborKernel _ _ _ _ _ _ _ => true | _ => false end) tr.

Definition failure_lines (tr : list event) : list string :=
  omap (λ ev, match ev with
              | EvPrint (MsgLoadError p) => Some p
              | EvPrint (MsgException p _) => Some p
              | _ => None
              end) tr.

(** What [os.makedirs(name, exist_ok=True)] and [cv2.imwrite] do to the file
    system when they do not raise. *)
Definition fs_makedirs (name : string) (f : gmap string node) : gmap string node :=
  match f !! name with
  | None => <[name := Dir]> f
  | Some _ => f
  end.

Definition fs_imwrite (filename : string) (content : list Byte.byte)
    (f : gmap string node) : gmap string node :=
  match f !! filename with
  | Some Dir => f
  | _ => <[filename := File content]> f
  end.

(** A regular file stands where the directory [name] should be. *)
Definition blocked (f : gmap string node) (name : string) : bool :=
  match f !! name with
  | Some (File _) => true
  | _ => false
  end.

(** Two file systems with the same fragments. *)
Definition same_inputs (f f0 : gmap string node) : Prop :=
  ∀ k, is_input k = true → f !! k = f0 !! k.

Section Closed_form.

Context (B : Backend) (repertoire_racine : string).

(** One iteration of the runner's loop on a file system where the output
    directory can be made; [f0] is the file system the fragments are read
    from. *)
Definition fs_step (f0 : gmap string node) (f : gmap string node) (image_path : string)
    : gmap string node :=
  match texture B f0 image_path with
  | Some t =>
      fs_imwrite (chemin_sortie repertoire_racine image_path) (imencode_png B t)
        (fs_makedirs (repertoire_sortie repertoire_racine) f)
  | None => f
  end.

Definition item_trace (f0 : gmap string node) (image_path : string) : list event :=
  texture_trace B f0 image_path ++
  match texture B f0 image_path with
  | Some t =>
      [EvPrint (MsgExtracted (os_path.basename image_path) (cv2.shape t));
       EvMakedirs (repertoire_sortie repertoire_racine) true;
       EvImwrite (chemin_sortie repertoire_racine image_path) t;
       EvPrint (MsgSaved (chemin_sortie repertoire_racine image_path))]
  | None => []
  end.

(** The loop when the output directory cannot be made: it stops at the
    first fragment that yields a texture. *)
Fixpoint blocked_trace (f0 : gmap string node) (l : list string) : list event :=
  match l with
  | [] => []
  | image_path :: l' =>
      texture_trace B f0 image_path ++
      match texture B f0 image_path with
      | Some t =>
          [EvPrint (MsgExtracted (os_path.basename image_path) (cv2.shape t));
           EvMakedirs (repertoire_sortie repertoire_racine) true]
      | None => blocked_trace f0 l'
      end
  end.

Definition some_texture (f0 : gmap string node) (l : list string) : bool :=
  existsb (λ k, match texture B f0 k with Some _ => true | None => false end) l.

Definition blocked_result (f0 : gmap string node) (l : list string) : res unit :=
  if some_texture f0 l then Raise (FileExistsError (repertoire_sortie repertoire_racine))
  else Ok tt.

(** The last node the loop over [l] writes at [p], if it writes there. *)
Fixpoint last_write (f0 : gmap string node) (l : list string) (p : string) : option node :=
  match l with
  | [] => None
  | image_path :: l' =>
      match last_write f0 l' p with
      | Some n => Some n
      | None =>
          match texture B f0 image_path with
          | Some t =>
              if decide (chemin_sortie repertoire_racine image_path = p)
              then Some (File (imencode_png B t))
              else None
          | None => None
          end
      end
  end.

(** The whole run. *)
Definition run_result (f : gmap string node) : res unit :=
  if blocked f (repertoire_sortie repertoire_racine)
  then blocked_result f (image_files B f repertoire_racine)
  else Ok tt.

Definition run_fs (f : gmap string node) : gmap string node :=
  if blocked f (repertoire_sortie repertoire_racine) then f
  else foldl (fs_step f) f (image_files B f repertoire_racine).

Definition run_trace (f : gmap string node) : list event :=
  EvGlob (os_path.join repertoire_racine motif) ::
  match image_files B f repertoire_racine with
  | [] => [EvPrint (MsgNoImage repertoire_racine)]
  | l =>
      EvPrint (MsgStart (length l)) ::
      if blocked f (repertoire_sortie repertoire_racine) then
        blocked_trace f l ++
        (if some_texture f l then [] else [EvPrint MsgDone])
      else concat (map (item_trace f) l) ++ [EvPrint MsgDone]
  end.

End Closed_form.

(** An exception [e] leaves one of the library calls of the Filter Step. *)
Inductive stage_raises (B : Backend) (f : gmap string node) (image_path : string)
    (ksize : Z) (sigma theta lambd gamma : float) (e : exn) : Prop :=
| raises_in_load :
    imread_result B f image_path = Raise e →
    stage_raises B f image_path ksize sigma theta lambd gamma e
| raises_in_grayscale img :
    imread_result B f image_path = Ok (Some img) →
    cvtColor_BGR2GRAY_result B img = Raise e →
    stage_raises B f image_path ksize sigma theta lambd gamma e
| raises_in_kernel img gray :
    imread_result B f image_path = Ok (Some img) →
    cvtColor_BGR2GRAY_result B img = Ok gray →
    getGaborKernel_result B (ksize, ksize) sigma theta lambd gamma psi0 cv2.CV_32F = Raise e →
    stage_raises B f image_path ksize sigma theta lambd gamma e
| raises_in_convolution img gray kernel :
    imread_result B f image_path = Ok (Some img) →
    cvtColor_BGR2GRAY_result B img = Ok gray →
    getGaborKernel_result B (ksize, ksize) sigma theta lambd gamma psi0 cv2.CV_32F = Ok kernel →
    filter2D_result B gray cv2.CV_8UC3 kernel = Raise e →
    stage_raises B f image_path ksize sigma theta lambd gamma e.

(** A directory prefix: empty, or ending with the separator. *)
Inductive dir_prefix : string → Prop :=
| dir_prefix_empty : dir_prefix EmptyString
| dir_prefix_sep pre : Py.endswith_char os_path.sep pre = true → dir_prefix pre.

(** The one call of [cv2.getGaborKernel] the runner's parameters lead to. *)
Definition runner_kernel_call : event :=
  EvGetGaborKernel (31, 31) 5.0%float 0x1.921fb54442d18p-1%float 10.0%float 0.5%float
    0%float cv2.CV_32F.


(** No dot in the name. *)
Fixpoint no_dot (s : string) : bool :=
  match s with
  | EmptyString => true
  | String c s' => negb (Ascii.eqb c ".") && no_dot s'
  end.

(** The lines printed, in order. *)
Definition printed (tr : list event) : list message :=
  omap (λ ev, match ev with EvPrint m => Some m | _ => None end) tr.

(** The lines the Filter Step may print. *)
Definition is_failure_message (m : message) : Prop :=
  match m with
  | MsgLoadError _ | MsgException _ _ => True
  | _ => False
  end.



(** The images handed to [cv2.imwrite], in order. *)
Definition imwrite_images (tr : list event) : list Mat :=
  omap (λ ev, match ev with EvImwrite _ img => Some img | _ => None end) tr.

(** The file at [image_path] loads and converts to grayscale: the Filter
    Step gets as far as the kernel construction. *)
Definition reaches_kernel (B : Backend) (f : gmap string node) (image_path : string) : bool :=
  match imread_result B f image_path with
  | Ok (Some img) =>
      match cvtColor_BGR2GRAY_result B img with
      | Ok _ => true
      | Raise _ => false
      end
  | _ => false
  end.

(** * Properties *)

(** ** Path names *)

Section Paths.

Import os_path.

Lemma append_nil_l (s : string) : "" +:+ s = s.
Proof. reflexivity. Qed.

Lemma append_cons (c : ascii) (a s : string) : String c a +:+ s = String c (a +:+ s).
Proof. reflexivity. Qed.

Lemma append_assoc (a b c : string) : (a +:+ b) +:+ c = a +:+ (b +:+ c).
Proof. induction a as [|x a IH]; [done|]. by rewrite !append_cons, IH. Qed.

Lemma cut_cons c p :
  os_path.cut_at_last_sep (String c p) =
  match os_path.cut_at_last_sep p with
  | (EmptyString, t) =>
      if Ascii.eqb c os_path.sep then (String c EmptyString, t) else (EmptyString, String c t)
  | (h, t) => (String c h, t)
  end.
Proof. reflexivity. Qed.

Lemma cut_no_sep n : no_sep n = true → cut_at_last_sep n = (EmptyString, n).
Proof.
  induction n as [|c n IH]; simpl; [done|].
  intros [Hc Hn]%andb_true_iff. rewrite (IH Hn).
  by destruct (Ascii.eqb c sep).
Qed.

Lemma cut_snd_no_sep p : no_sep (snd (cut_at_last_sep p)) = true.
Proof.
  induction p as [|c p IH]; simpl; [done|].
  destruct (cut_at_last_sep p) as [[|h0 h] t]; simpl in *.
  - destruct (Ascii.eqb c sep) eqn:E; simpl; [done|]. by rewrite E.
  - done.
Qed.

Lemma basename_no_sep p : no_sep (basename p) = true.
Proof. apply cut_snd_no_sep. Qed.

(** The cut gives back the path: a directory prefix, then the base name. *)
Lemma cut_spec p :
  p = fst (cut_at_last_sep p) +:+ snd (cut_at_last_sep p)
  ∧ dir_prefix (fst (cut_at_last_sep p)).
Proof.
  induction p as [|c p [IH1 IH2]]; [split; [done | constructor]|].
  rewrite cut_cons. destruct (cut_at_last_sep p) as [[|a h] t]; cbn [fst snd] in *.
  - destruct (Ascii.eqb c sep) eqn:E; cbn [fst snd].
    + split; [by rewrite IH1 at 1|]. constructor. cbn. exact E.
    + split; [by rewrite IH1 at 1 | constructor].
  - split; [by rewrite IH1 at 1|]. constructor.
    inversion IH2 as [|pre Hpre]; subst. exact Hpre.
Qed.

(** A name put after a directory prefix is the base name of the result. *)
Lemma cut_dir_prefix pre n :
  dir_prefix pre → no_sep n = true → cut_at_last_sep (pre +:+ n) = (pre, n).
Proof.
  intros Hpre Hn. destruct Hpre as [|pre Hend]; [by apply cut_no_sep|].
  induction pre as [|c pre IH]; [done|].
  simpl in Hend. destruct pre as [|c' pre'].
  - rewrite append_cons, append_nil_l, cut_cons, (cut_no_sep n Hn). by rewrite Hend.
  - specialize (IH Hend). by rewrite append_cons, cut_cons, IH.
Qed.

Lemma no_sep_startswith n : no_sep n = true → Py.startswith "/" n = false.
Proof.
  destruct n as [|c n]; [done|].
  cbn [no_sep]. intros [Hc _]%andb_true_iff.
  change (Py.startswith "/" (String c n)) with (Ascii.eqb sep c && true).
  rewrite Ascii.eqb_sym. by destruct (Ascii.eqb c sep).
Qed.

Lemma endswith_app_sep a : Py.endswith_char sep (a +:+ "/") = true.
Proof.
  induction a as [|c a IH]; [reflexivity|].
  rewrite append_cons. cbn [Py.endswith_char].
  destruct (a +:+ "/") eqn:E; [destruct a; inversion E | exact IH].
Qed.

Lemma join_dir_prefix a n :
  no_sep n = true → ∃ pre, join a n = pre +:+ n ∧ dir_prefix pre.
Proof.
  intros Hn. unfold join. rewrite (no_sep_startswith n Hn).
  destruct (String.length a =? 0)%nat eqn:Hl.
  - exists a. split; [done|]. destruct a; [constructor | done].
  - simpl. destruct (Py.endswith_char sep a) eqn:He.
    + exists a. split; [done | by constructor].
    + exists (a +:+ "/"). split.
      * by rewrite append_assoc.
      * constructor. apply endswith_app_sep.
Qed.

Lemma basename_join a n : no_sep n = true → basename (join a n) = n.
Proof.
  intros Hn. destruct (join_dir_prefix a n Hn) as (pre & -> & Hpre).
  unfold basename. by rewrite cut_dir_prefix.
Qed.

Lemma split_join_snd a n : no_sep n = true → snd (split (join a n)) = n.
Proof.
  intros Hn. unfold split.
  pose proof (basename_join a n Hn) as Hb. unfold basename in Hb.
  destruct (cut_at_last_sep (join a n)) as [h t]. by simpl in *.
Qed.

End Paths.

(** ** The names the runner reads and the names it writes *)

Lemma no_sep_append a b : no_sep (a +:+ b) = no_sep a && no_sep b.
Proof.
  induction a as [|c a IH]; [done|].
  rewrite append_cons. cbn [no_sep]. by rewrite IH, andb_assoc.
Qed.

Lemma replace_from_no_sep old new k s :
  no_sep new = true → no_sep s = true → no_sep (Py.replace_from old new k s) = true.
Proof.
  intros Hnew. revert k. induction s as [|c s IH]; intros k Hs; [done|].
  cbn [no_sep] in Hs. apply andb_true_iff in Hs as [Hc Hs].
  cbn [Py.replace_from]. destruct k as [|k]; [|by apply IH].
  destruct (Py.startswith old (String c s)).
  - rewrite no_sep_append, Hnew. by apply IH.
  - cbn [no_sep]. rewrite Hc. by apply IH.
Qed.

Lemma nom_sortie_no_sep n : no_sep n = true → no_sep (nom_sortie n) = true.
Proof.
  intros Hn. unfold nom_sortie, Py.replace. rewrite no_sep_append.
  by rewrite replace_from_no_sep.
Qed.

Lemma motif_first n : fnmatch motif n = true → ∃ n', n = String "f" n'.
Proof.
  destruct n as [|c n]; [done|].
  change (fnmatch motif (String c n))
    with ((Ascii.eqb "f" "?" || Ascii.eqb "f" c) && fnmatch "rag_eroded_*.ppm" n).
  intros [Hc _]%andb_true_iff.
  destruct (Ascii.eqb_spec "f" c) as [<-|_]; [by exists n|].
  vm_compute in Hc. discriminate Hc.
Qed.

Lemma basename_repertoire_sortie root :
  os_path.basename (repertoire_sortie root) = "textures_traitees".
Proof. by apply basename_join. Qed.

Lemma basename_chemin_sortie root k :
  os_path.basename (chemin_sortie root k) = nom_sortie (os_path.basename k).
Proof. apply basename_join, nom_sortie_no_sep, basename_no_sep. Qed.

Lemma is_input_repertoire_sortie root : is_input (repertoire_sortie root) = false.
Proof. unfold is_input. by rewrite basename_repertoire_sortie. Qed.

Lemma is_input_chemin_sortie root k : is_input (chemin_sortie root k) = false.
Proof.
  unfold is_input. rewrite basename_chemin_sortie.
  destruct (fnmatch motif (nom_sortie (os_path.basename k))) eqn:E; [|done].
  apply motif_first in E as [n' E]. unfold nom_sortie in E.
  rewrite !append_cons in E. discriminate E.
Qed.

Lemma chemin_sortie_ne_repertoire root k : chemin_sortie root k ≠ repertoire_sortie root.
Proof.
  intros E. apply (f_equal os_path.basename) in E.
  rewrite basename_chemin_sortie, basename_repertoire_sortie in E.
  unfold nom_sortie in E. rewrite !append_cons in E. discriminate E.
Qed.

Lemma is_input_ne k p : is_input k = true → is_input p = false → k ≠ p.
Proof. intros Hk Hp ->. congruence. Qed.

(** ** The Filter Step *)

Section FilterStep.

Context (B : Backend).

Ltac run_step :=
  cbv [extraire_texture_gabor try_except bind cv2_imread cv2_cvtColor_BGR2GRAY
       cv2_getGaborKernel cv2_filter2D print emit read_fs lift_res ret fs trace fst snd].

(** The step never raises, gives back the base name, leaves the file system
    alone and only appends to the trace. *)
Lemma extraire_texture_gabor_spec image_path ksize sigma theta lambd gamma w :
  extraire_texture_gabor B image_path ksize sigma theta lambd gamma w =
  (Ok (os_path.basename image_path,
       filter_value B (fs w) image_path ksize sigma theta lambd gamma),
   mkWorld (fs w)
     (trace w ++ filter_trace B (fs w) image_path ksize sigma theta lambd gamma)).
Proof.
  destruct w as [f tr]. unfold filter_value, filter_trace. run_step.
  destruct (imread_result B f image_path) as [[img|]|e]; cbn [fs trace fst snd].
  - destruct (cvtColor_BGR2GRAY_result B img) as [gray|e]; cbn [fs trace fst snd].
    + destruct (getGaborKernel_result B (ksize, ksize) sigma theta lambd gamma psi0 cv2.CV_32F)
        as [kernel|e]; cbn [fs trace fst snd].
      * destruct (filter2D_result B gray cv2.CV_8UC3 kernel) as [out|e]; cbn [fs trace fst snd];
          by rewrite <- !app_assoc.
      * by rewrite <- !app_assoc.
    + by rewrite <- !app_assoc.
  - by rewrite <- !app_assoc.
  - by rewrite <- !app_assoc.
Qed.

End FilterStep.

Section FilterStepFacts.

Context (B : Backend).

Ltac run_step :=
  cbv [extraire_texture_gabor try_except bind cv2_imread cv2_cvtColor_BGR2GRAY
       cv2_getGaborKernel cv2_filter2D print emit read_fs lift_res ret fs trace fst snd].

Ltac step_cases f image_path ksize sigma theta lambd gamma :=
  destruct (imread_result B f image_path) as [[?img|]|?e]; [|reflexivity..];
  destruct (cvtColor_BGR2GRAY_result B img) as [?gray|?e]; [|reflexivity];
  destruct (getGaborKernel_result B (ksize, ksize) sigma theta lambd gamma psi0 cv2.CV_32F)
    as [?kernel|?e]; [|reflexivity];
  destruct (filter2D_result B gray cv2.CV_8UC3 kernel) as [?out|?e]; reflexivity.

(** The step reads nothing but its own file. *)
Lemma imread_result_ext f f' p : f !! p = f' !! p → imread_result B f p = imread_result B f' p.
Proof. intros H. unfold imread_result. by rewrite H. Qed.

Lemma filter_value_ext f f' p ksize sigma theta lambd gamma :
  f !! p = f' !! p →
  filter_value B f p ksize sigma theta lambd gamma
  = filter_value B f' p ksize sigma theta lambd gamma.
Proof.
  intros H. unfold filter_value. run_step. rewrite (imread_result_ext f f' p H).
  step_cases f' p ksize sigma theta lambd gamma.
Qed.

Lemma filter_trace_ext f f' p ksize sigma theta lambd gamma :
  f !! p = f' !! p →
  filter_trace B f p ksize sigma theta lambd gamma
  = filter_trace B f' p ksize sigma theta lambd gamma.
Proof.
  intros H. unfold filter_trace. run_step. rewrite (imread_result_ext f f' p H).
  step_cases f' p ksize sigma theta lambd gamma.
Qed.

Lemma filter_trace_imread f p ksize sigma theta lambd gamma :
  imread_calls (filter_trace B f p ksize sigma theta lambd gamma) = [p].
Proof.
  unfold filter_value, filter_trace. run_step.
  step_cases f p ksize sigma theta lambd gamma.
Qed.

Lemma filter_trace_imwrite f p ksize sigma theta lambd gamma :
  imwrite_calls (filter_trace B f p ksize sigma theta lambd gamma) = [].
Proof.
  unfold filter_value, filter_trace. run_step.
  step_cases f p ksize sigma theta lambd gamma.
Qed.

Lemma filter_trace_makedirs f p ksize sigma theta lambd gamma :
  makedirs_calls (filter_trace B f p ksize sigma theta lambd gamma) = [].
Proof.
  unfold filter_value, filter_trace. run_step.
  step_cases f p ksize sigma theta lambd gamma.
Qed.

Lemma filter_trace_failure f p ksize sigma theta lambd gamma :
  failure_lines (filter_trace B f p ksize sigma theta lambd gamma)
  = match filter_value B f p ksize sigma theta lambd gamma with
    | Some _ => []
    | None => [p]
    end.
Proof.
  unfold filter_value, filter_trace. run_step.
  step_cases f p ksize sigma theta lambd gamma.
Qed.


End FilterStepFacts.

(** ** The loop body *)

Section Body.

Context (B : Backend) (root : string).

Ltac run_body :=
  cbv [bind print emit read_fs write_fs ret raise os_makedirs cv2_imwrite fs trace].

Lemma traiter_image_free k f tr :
  blocked f (repertoire_sortie root) = false →
  traiter_image B root k (mkWorld f tr)
  = (Ok tt, mkWorld (fs_step B root f f k) (tr ++ item_trace B root f k)).
Proof.
  intros Hb. unfold traiter_image. unfold bind at 1.
  rewrite extraire_texture_gabor_spec. cbn [fs trace].
  unfold fs_step, item_trace. fold (texture B f k). fold (texture_trace B f k).
  destruct (texture B f k) as [t|]; [|by rewrite app_nil_r].
  run_body. unfold blocked in Hb. unfold fs_makedirs.
  fold (chemin_sortie root k).
  destruct (f !! repertoire_sortie root) as [[|c]|] eqn:Hd; [|done|].
  - cbn [fs trace]. unfold fs_imwrite.
    destruct (f !! chemin_sortie root k) as [[|c]|]; cbn [fs trace];
      by rewrite <- !app_assoc.
  - cbn [fs trace]. unfold fs_imwrite.
    destruct (<[repertoire_sortie root:=Dir]> f !! chemin_sortie root k) as [[|c]|];
      cbn [fs trace]; by rewrite <- !app_assoc.
Qed.

Lemma traiter_image_blocked k f tr :
  blocked f (repertoire_sortie root) = true →
  traiter_image B root k (mkWorld f tr)
  = match texture B f k with
    | Some t =>
        (Raise (FileExistsError (repertoire_sortie root)),
         mkWorld f (tr ++ texture_trace B f k ++
                    [EvPrint (MsgExtracted (os_path.basename k) (cv2.shape t));
                     EvMakedirs (repertoire_sortie root) true]))
    | None => (Ok tt, mkWorld f (tr ++ texture_trace B f k))
    end.
Proof.
  intros Hb. unfold traiter_image. unfold bind at 1.
  rewrite extraire_texture_gabor_spec. cbn [fs trace].
  fold (texture B f k). fold (texture_trace B f k).
  destruct (texture B f k) as [t|]; [|done].
  run_body. unfold blocked in Hb.
  destruct (f !! repertoire_sortie root) as [[|c]|] eqn:Hd; [done| |done].
  by rewrite <- !app_assoc.
Qed.

End Body.

(** ** What the runner lists *)

Section Listing.

Context (B : Backend).

Lemma no_sep_motif : no_sep motif = true.
Proof. reflexivity. Qed.

Lemma glob_result_motif f root :
  glob_result B f (os_path.join root motif)
  = scandir_order B
      (List.filter (glob_select (fst (os_path.split (os_path.join root motif))) motif)
         (map_to_list f).*1).
Proof.
  unfold glob_result.
  pose proof (split_join_snd root motif no_sep_motif) as Hs.
  destruct (os_path.split (os_path.join root motif)) as [d pat].
  simpl in Hs. by subst pat.
Qed.

Lemma elem_of_image_files f root k :
  k ∈ image_files B f root ↔
  is_Some (f !! k)
  ∧ glob_select (fst (os_path.split (os_path.join root motif))) motif k = true.
Proof.
  unfold image_files, sorted. rewrite merge_sort_Permutation, glob_result_motif.
  rewrite (scandir_order_perm B). rewrite list_elem_of_In, filter_In, <- list_elem_of_In.
  rewrite list_elem_of_fmap. split.
  - intros [([k' n] & -> & Hin%elem_of_map_to_list) Hsel]. split; [by exists n | done].
  - intros [[n Hn] Hsel]. split; [|done].
    exists (k, n). split; [done|]. by apply elem_of_map_to_list.
Qed.

Lemma glob_select_is_input d k : glob_select d motif k = true → is_input k = true.
Proof. unfold glob_select, is_input. by intros [_ H]%andb_true_iff. Qed.

Lemma image_files_is_input f root :
  Forall (λ k, is_input k = true) (image_files B f root).
Proof.
  apply Forall_forall. intros k [_ Hsel]%elem_of_image_files.
  by apply glob_select_is_input in Hsel.
Qed.

Lemma image_files_NoDup f root : NoDup (image_files B f root).
Proof.
  unfold image_files, sorted. rewrite merge_sort_Permutation, glob_result_motif.
  rewrite (scandir_order_perm B). apply NoDup_ListNoDup, List.NoDup_filter, NoDup_ListNoDup.
  apply NoDup_fst_map_to_list.
Qed.

Lemma image_files_sorted f root : StronglySorted String.le (image_files B f root).
Proof. apply StronglySorted_merge_sort; apply _. Qed.

End Listing.

(** The list is decided by the set of matching entries alone: neither the
    order in which the system lists the directory nor anything else in the
    file system takes part. *)
Lemma image_files_ext B B' f f' root :
  same_inputs f f' → image_files B f root = image_files B' f' root.
Proof.
  intros Hagree. apply (StronglySorted_unique String.le).
  - apply image_files_sorted.
  - apply image_files_sorted.
  - apply NoDup_Permutation; [apply image_files_NoDup..|].
    intros k. rewrite !elem_of_image_files.
    split; intros [Hk Hsel]; (split; [|done]);
      pose proof (glob_select_is_input _ _ Hsel) as Hin;
      [rewrite <- (Hagree k Hin) | rewrite (Hagree k Hin)]; done.
Qed.

(** ** The loop and the whole run *)

Lemma fs_makedirs_lookup_ne name f p : p ≠ name → fs_makedirs name f !! p = f !! p.
Proof.
  intros Hne. unfold fs_makedirs. destruct (f !! name); [done|].
  by rewrite lookup_insert_ne.
Qed.

Lemma fs_imwrite_lookup_ne name c f p : p ≠ name → fs_imwrite name c f !! p = f !! p.
Proof.
  intros Hne. unfold fs_imwrite.
  destruct (f !! name) as [[|?]|]; by rewrite ?lookup_insert_ne.
Qed.

Lemma fs_makedirs_lookup name f :
  blocked f name = false → fs_makedirs name f !! name = Some Dir.
Proof.
  unfold blocked, fs_makedirs. destruct (f !! name) as [[|?]|] eqn:E; [done..|].
  intros _. by rewrite lookup_insert_eq.
Qed.

Section Loop.

Context (B : Backend) (root : string).

Lemma same_inputs_refl f : same_inputs f f.
Proof. by intros k _. Qed.

Lemma texture_same f f0 k :
  same_inputs f f0 → is_input k = true → texture B f k = texture B f0 k.
Proof. intros H Hk. apply filter_value_ext. by apply H. Qed.

Lemma texture_trace_same f f0 k :
  same_inputs f f0 → is_input k = true → texture_trace B f k = texture_trace B f0 k.
Proof. intros H Hk. apply filter_trace_ext. by apply H. Qed.

Lemma fs_step_lookup_ne f0 f k p :
  p ≠ repertoire_sortie root → p ≠ chemin_sortie root k →
  fs_step B root f0 f k !! p = f !! p.
Proof.
  intros H1 H2. unfold fs_step. destruct (texture B f0 k); [|done].
  by rewrite fs_imwrite_lookup_ne, fs_makedirs_lookup_ne.
Qed.

Lemma fs_step_same_inputs f0 f k : same_inputs f f0 → same_inputs (fs_step B root f0 f k) f0.
Proof.
  intros H p Hp. rewrite fs_step_lookup_ne; [by apply H|..].
  - apply (is_input_ne _ _ Hp), is_input_repertoire_sortie.
  - apply (is_input_ne _ _ Hp), is_input_chemin_sortie.
Qed.

Lemma fs_step_blocked f0 f k :
  blocked f (repertoire_sortie root) = false →
  blocked (fs_step B root f0 f k) (repertoire_sortie root) = false.
Proof.
  intros Hb. unfold fs_step. destruct (texture B f0 k); [|done].
  unfold blocked.
  rewrite fs_imwrite_lookup_ne by (apply not_eq_sym, chemin_sortie_ne_repertoire).
  by rewrite fs_makedirs_lookup.
Qed.

Lemma for_each_free f0 l : ∀ f tr,
  Forall (λ k, is_input k = true) l →
  same_inputs f f0 →
  blocked f (repertoire_sortie root) = false →
  for_each l (traiter_image B root) (mkWorld f tr)
  = (Ok tt, mkWorld (foldl (fs_step B root f0) f l)
                    (tr ++ concat (map (item_trace B root f0) l))).
Proof.
  induction l as [|k l IH]; intros f tr Hl Hsame Hb.
  - cbn. by rewrite app_nil_r.
  - apply Forall_cons in Hl as [Hk Hl].
    cbn [for_each]. unfold bind at 1. rewrite traiter_image_free by done.
    assert (fs_step B root f f k = fs_step B root f0 f k) as ->.
    { unfold fs_step. by rewrite (texture_same f f0 k). }
    assert (item_trace B root f k = item_trace B root f0 k) as ->.
    { unfold item_trace. by rewrite (texture_same f f0 k), (texture_trace_same f f0 k). }
    rewrite IH; [|done|by apply fs_step_same_inputs|by apply fs_step_blocked].
    cbn [foldl map concat]. by rewrite <- app_assoc.
Qed.

Lemma for_each_blocked f l : ∀ tr,
  blocked f (repertoire_sortie root) = true →
  for_each l (traiter_image B root) (mkWorld f tr)
  = (blocked_result B root f l, mkWorld f (tr ++ blocked_trace B root f l)).
Proof.
  induction l as [|k l IH]; intros tr Hb.
  - cbn. by rewrite app_nil_r.
  - cbn [for_each]. unfold bind at 1. rewrite traiter_image_blocked by done.
    unfold blocked_result. cbn [some_texture existsb blocked_trace].
    destruct (texture B f k) as [t|]; cbn [orb]; [done|].
    rewrite IH by done. by rewrite <- app_assoc.
Qed.

(** The run in closed form. *)
Lemma balayer_et_traiter_images_spec w :
  balayer_et_traiter_images B root w
  = (run_result B root (fs w),
     mkWorld (run_fs B root (fs w)) (trace w ++ run_trace B root (fs w))).
Proof.
  destruct w as [f tr]. unfold balayer_et_traiter_images, run_result, run_fs, run_trace.
  unfold glob_glob. cbv [bind emit read_fs ret fs trace].
  change (sorted (glob_result B f (os_path.join root "frag_eroded_*.ppm")))
    with (image_files B f root).
  pose proof (image_files_is_input B f root) as Hin.
  destruct (image_files B f root) as [|k l] eqn:El.
  - cbv [print emit fs trace]. rewrite <- app_assoc.
    by destruct (blocked f (repertoire_sortie root)).
  - cbv [print emit fs trace].
    destruct (blocked f (repertoire_sortie root)) eqn:Hb.
    + rewrite for_each_blocked by done. unfold blocked_result.
      destruct (some_texture B f (k :: l)); cbn [fs trace].
      * rewrite app_nil_r. by rewrite <- !app_assoc.
      * by rewrite <- !app_assoc.
    + rewrite (for_each_free f) by (done || apply same_inputs_refl).
      cbn [fs trace]. by rewrite <- !app_assoc.
Qed.

End Loop.

(** ** The Filter Step: claims *)

Section FilterStepClaims.

Context (B : Backend).

Ltac run_step :=
  cbv [extraire_texture_gabor try_except bind cv2_imread cv2_cvtColor_BGR2GRAY
       cv2_getGaborKernel cv2_filter2D print emit read_fs lift_res ret fs trace fst snd].

(** C1. The Filter Step never raises.  On every path and in every world it
    returns normally with the base name of the path and leaves the file
    system as it was.  When the load gives nothing, the second result is
    absent and the step has printed the load error.  When an exception leaves
    the load, the grayscale conversion, the kernel construction or the
    convolution, the second result is absent and the last thing the step did
    was to print that exception together with the path. *)
Theorem C1_filter_step_never_raises image_path ksize sigma theta lambd gamma w :
  ∃ t w',
    extraire_texture_gabor B image_path ksize sigma theta lambd gamma w
      = (Ok (os_path.basename image_path, t), w')
    ∧ fs w' = fs w
    ∧ (imread_result B (fs w) image_path = Ok None →
       t = None
       ∧ trace w' = trace w ++ [EvImread image_path; EvPrint (MsgLoadError image_path)])
    ∧ (∀ e, stage_raises B (fs w) image_path ksize sigma theta lambd gamma e →
       t = None
       ∧ ∃ evs, trace w' = trace w ++ evs ++ [EvPrint (MsgException image_path e)]).
Proof.
  eexists _, _. split; [apply extraire_texture_gabor_spec|].
  split; [done|]. cbn [fs trace]. destruct w as [f tr]. cbn [fs trace].
  unfold filter_value, filter_trace. run_step. split.
  - intros ->. done.
  - intros e [H1|img H1 H2|img gray H1 H2 H3|img gray kernel H1 H2 H3 H4];
      rewrite H1; try rewrite H2; try rewrite H3; try rewrite H4;
      (split; [done|]); cbn [app]; eexists; f_equal;
      match goal with
      | |- ?l = _ ++ [?x] =>
          first [ instantiate (1 := [_]); reflexivity
                | instantiate (1 := [_; _]); reflexivity
                | instantiate (1 := [_; _; _]); reflexivity
                | instantiate (1 := [_; _; _; _]); reflexivity ]
      end.
Qed.

(** C9. Whatever happens in the step, the first component of its result is
    the base name of the path: what follows the last separator, the path
    being its directory prefix followed by that name. *)
Theorem C9_first_component_is_basename image_path ksize sigma theta lambd gamma w :
  (∃ t, fst (extraire_texture_gabor B image_path ksize sigma theta lambd gamma w)
        = Ok (os_path.basename image_path, t))
  ∧ no_sep (os_path.basename image_path) = true
  ∧ ∃ d, dir_prefix d ∧ image_path = d +:+ os_path.basename image_path.
Proof.
  split; [|split].
  - rewrite extraire_texture_gabor_spec. by eexists.
  - apply basename_no_sep.
  - destruct (cut_spec image_path) as [H1 H2]. by eexists.
Qed.

(** Shapes and types through the OpenCV calls. *)
Lemma cvtColor_BGR2GRAY_shape img gray :
  cvtColor_BGR2GRAY_result B img = Ok gray →
  rows gray = rows img ∧ cols gray = cols img
  ∧ mtype gray = cv2.CV_MAKETYPE (cv2.depth img) 1.
Proof.
  unfold cvtColor_BGR2GRAY_result. intros H.
  repeat (case_match; try discriminate). by simplify_eq.
Qed.

Lemma filter2D_shape src ddepth kernel out :
  filter2D_result B src ddepth kernel = Ok out →
  rows out = rows src ∧ cols out = cols src
  ∧ mtype out = cv2.CV_MAKETYPE (if ddepth <? 0 then cv2.depth src else ddepth)
                  (cv2.channels src).
Proof.
  unfold filter2D_result. intros H.
  repeat (case_match; try discriminate); by simplify_eq.
Qed.

Lemma imread_result_type f p img :
  imread_result B f p = Ok (Some img) → mtype img = cv2.CV_8UC3.
Proof.
  unfold imread_result. intros H.
  repeat (case_match; try discriminate); by simplify_eq.
Qed.

Lemma CV_MAT_CN_one_channel d : cv2.CV_MAT_CN (cv2.CV_MAKETYPE d 1) = 1.
Proof.
  unfold cv2.CV_MAT_CN, cv2.CV_MAKETYPE, cv2.CV_MAT_DEPTH.
  change (Z.shiftl (1 - 1) cv2.CV_CN_SHIFT) with 0. rewrite Z.add_0_r.
  rewrite <- Z.land_assoc.
  change (Z.land cv2.CV_MAT_DEPTH_MASK cv2.CV_MAT_CN_MASK) with 0.
  by rewrite Z.land_0_r.
Qed.

(** C3. When the step succeeds, the image it returns has the height and the
    width of the image that was loaded, one channel and depth 8U: its type
    is [CV_8UC1], although the script asks for [CV_8UC3]. *)
Theorem C3_output_shape image_path ksize sigma theta lambd gamma w name out w' :
  extraire_texture_gabor B image_path ksize sigma theta lambd gamma w
    = (Ok (name, Some out), w') →
  ∃ img,
    imread_result B (fs w) image_path = Ok (Some img)
    ∧ rows out = rows img ∧ cols out = cols img
    ∧ cv2.channels out = 1 ∧ cv2.depth out = cv2.CV_8U
    ∧ mtype out = cv2.CV_8UC1.
Proof.
  rewrite extraire_texture_gabor_spec. intros H. destruct w as [f tr]. cbn [fs] in *.
  assert (filter_value B f image_path ksize sigma theta lambd gamma = Some out)
    as Hv by congruence.
  clear H. revert Hv. unfold filter_value. run_step.
  destruct (imread_result B f image_path) as [[img|]|e] eqn:Himg;
    [|intros [=]..].
  destruct (cvtColor_BGR2GRAY_result B img) as [gray|e] eqn:Hgray; [|intros [=]].
  destruct (getGaborKernel_result B (ksize, ksize) sigma theta lambd gamma psi0 cv2.CV_32F)
    as [kernel|e]; [|intros [=]].
  destruct (filter2D_result B gray cv2.CV_8UC3 kernel) as [out'|e] eqn:Hout; [|intros [=]].
  intros [= ->]. exists img. split; [done|].
  apply cvtColor_BGR2GRAY_shape in Hgray as (Hr & Hc & Ht).
  apply filter2D_shape in Hout as (Hr' & Hc' & Ht').
  assert (cv2.channels gray = 1) as Hcn.
  { unfold cv2.channels. rewrite Ht. apply CV_MAT_CN_one_channel. }
  rewrite Hcn in Ht'. change (cv2.CV_8UC3 <? 0) with false in Ht'.
  change (cv2.CV_MAKETYPE cv2.CV_8UC3 1) with 0 in Ht'.
  unfold cv2.channels, cv2.depth. rewrite Ht'.
  repeat split; congruence.
Qed.

End FilterStepClaims.

(** ** Traces of the run *)


Lemma imwrite_calls_app a b : imwrite_calls (a ++ b) = imwrite_calls a ++ imwrite_calls b.
Proof. apply omap_app. Qed.

Lemma makedirs_calls_app a b : makedirs_calls (a ++ b) = makedirs_calls a ++ makedirs_calls b.
Proof. apply omap_app. Qed.

Lemma failure_lines_app a b : failure_lines (a ++ b) = failure_lines a ++ failure_lines b.
Proof. apply omap_app. Qed.

Section Traces.

Context (B : Backend) (root : string).











End Traces.

Section Writes.

Context (B : Backend) (root : string).

Lemma item_trace_imwrite f k :
  imwrite_calls (item_trace B root f k)
  = match texture B f k with Some _ => [chemin_sortie root k] | None => [] end.
Proof.
  unfold item_trace, imwrite_calls. rewrite omap_app.
  fold (imwrite_calls (texture_trace B f k)).
  unfold texture_trace. rewrite filter_trace_imwrite.
  by destruct (texture B f k).
Qed.

Lemma item_trace_makedirs f k :
  makedirs_calls (item_trace B root f k)
  = match texture B f k with Some _ => [repertoire_sortie root] | None => [] end.
Proof.
  unfold item_trace, makedirs_calls. rewrite omap_app.
  fold (makedirs_calls (texture_trace B f k)).
  unfold texture_trace. rewrite filter_trace_makedirs.
  by destruct (texture B f k).
Qed.

Lemma item_trace_failure f k :
  failure_lines (item_trace B root f k)
  = match texture B f k with Some _ => [] | None => [k] end.
Proof.
  unfold item_trace, failure_lines. rewrite omap_app.
  fold (failure_lines (texture_trace B f k)).
  unfold texture_trace, texture. rewrite filter_trace_failure.
  by destruct (filter_value _ _ _ _ _ _ _ _).
Qed.

Lemma concat_item_trace_imwrite f l :
  imwrite_calls (concat (map (item_trace B root f) l))
  = chemin_sortie root <$> filter (λ k, is_Some (texture B f k)) l.
Proof.
  induction l as [|k l IH]; [done|].
  cbn [map concat]. rewrite imwrite_calls_app, item_trace_imwrite, IH.
  destruct (texture B f k) as [t|] eqn:E.
  - by rewrite filter_cons_True by (by rewrite E).
  - rewrite filter_cons_False; [done|]. rewrite E. by intros [? ?].
Qed.

Lemma concat_item_trace_failure f l :
  failure_lines (concat (map (item_trace B root f) l))
  = filter (λ k, ¬ is_Some (texture B f k)) l.
Proof.
  induction l as [|k l IH]; [done|].
  cbn [map concat]. rewrite failure_lines_app, item_trace_failure, IH.
  destruct (texture B f k) as [t|] eqn:E.
  - rewrite filter_cons_False; [done|]. rewrite E. intros H. by apply H.
  - rewrite filter_cons_True; [done|]. rewrite E. by intros [? ?].
Qed.

(** Without a texture nothing is written and no directory is asked for. *)
Lemma foldl_fs_step_none f0 l f :
  some_texture B f0 l = false → foldl (fs_step B root f0) f l = f.
Proof.
  induction l as [|k l IH]; [done|].
  cbn [some_texture existsb foldl]. unfold fs_step at 2.
  destruct (texture B f0 k); [done|]. exact IH.
Qed.

Lemma concat_item_trace_quiet f l :
  some_texture B f l = false →
  makedirs_calls (concat (map (item_trace B root f) l)) = []
  ∧ imwrite_calls (concat (map (item_trace B root f) l)) = [].
Proof.
  induction l as [|k l IH]; [done|].
  cbn [some_texture existsb map concat]. unfold makedirs_calls, imwrite_calls in *.
  rewrite !omap_app.
  fold (makedirs_calls (item_trace B root f k)). fold (imwrite_calls (item_trace B root f k)).
  rewrite item_trace_makedirs, item_trace_imwrite.
  destruct (texture B f k); [done|]. cbn [orb]. intros H.
  by destruct (IH H) as [-> ->].
Qed.

Lemma blocked_trace_quiet f l :
  some_texture B f l = false →
  makedirs_calls (blocked_trace B root f l) = []
  ∧ imwrite_calls (blocked_trace B root f l) = [].
Proof.
  induction l as [|k l IH]; [done|].
  cbn [some_texture existsb blocked_trace]. unfold makedirs_calls, imwrite_calls in *.
  rewrite !omap_app.
  fold (makedirs_calls (texture_trace B f k)). fold (imwrite_calls (texture_trace B f k)).
  unfold texture_trace at 1 2. rewrite filter_trace_makedirs, filter_trace_imwrite.
  destruct (texture B f k); [done|]. cbn [orb]. intros H.
  by destruct (IH H) as [-> ->].
Qed.

Lemma blocked_trace_imwrite f l : imwrite_calls (blocked_trace B root f l) = [].
Proof.
  induction l as [|k l IH]; [done|].
  cbn [blocked_trace]. unfold imwrite_calls in *. rewrite omap_app.
  fold (imwrite_calls (texture_trace B f k)).
  unfold texture_trace at 1. rewrite filter_trace_imwrite.
  by destruct (texture B f k).
Qed.


Lemma run_trace_imwrite f :
  imwrite_calls (run_trace B root f)
  = if blocked f (repertoire_sortie root) then []
    else chemin_sortie root <$>
           filter (λ k, is_Some (texture B f k)) (image_files B f root).
Proof.
  unfold run_trace. destruct (image_files B f root) as [|k l].
  - by destruct (blocked f (repertoire_sortie root)).
  - change (imwrite_calls (EvGlob ?p :: EvPrint ?m :: ?t)) with (imwrite_calls t).
    destruct (blocked f (repertoire_sortie root)); rewrite imwrite_calls_app.
    + rewrite blocked_trace_imwrite. by destruct (some_texture B f (k :: l)).
    + rewrite concat_item_trace_imwrite. cbn [imwrite_calls omap]. by rewrite app_nil_r.
Qed.

Lemma run_trace_quiet f :
  some_texture B f (image_files B f root) = false →
  makedirs_calls (run_trace B root f) = [] ∧ imwrite_calls (run_trace B root f) = [].
Proof.
  intros H. unfold run_trace. destruct (image_files B f root) as [|k l]; [done|].
  change (makedirs_calls (EvGlob ?p :: EvPrint ?m :: ?t)) with (makedirs_calls t).
  change (imwrite_calls (EvGlob ?p :: EvPrint ?m :: ?t)) with (imwrite_calls t).
  rewrite H.
  destruct (blocked f (repertoire_sortie root));
    rewrite makedirs_calls_app, imwrite_calls_app; cbn [makedirs_calls imwrite_calls omap];
    rewrite !app_nil_r.
  - by apply blocked_trace_quiet.
  - by apply concat_item_trace_quiet.
Qed.

End Writes.

(** ** The Batch Runner: claims *)

Section RunnerClaims.

Context (B : Backend).


(** C6. When the glob finds nothing, the run prints that no image was found
    and returns: the file system is what it was (no output directory is
    made) and nothing else happens. *)
Theorem C6_empty_input root w :
  glob_result B (fs w) (os_path.join root motif) = [] →
  balayer_et_traiter_images B root w
  = (Ok tt,
     mkWorld (fs w)
       (trace w ++ [EvGlob (os_path.join root motif); EvPrint (MsgNoImage root)])).
Proof.
  intros H. rewrite balayer_et_traiter_images_spec.
  unfold run_result, run_fs, run_trace, image_files. rewrite H.
  change (sorted []) with (@nil string).
  unfold blocked_result. cbn [some_texture existsb foldl].
  by destruct (blocked (fs w) (repertoire_sortie root)).
Qed.

(** C10. When no file of the batch yields a texture, the batch being empty
    or not, the run returns normally, the file system is what it was, and
    the trace has no call of [os.makedirs] and no call of [cv2.imwrite]. *)
Theorem C10_no_texture_no_output root w :
  some_texture B (fs w) (image_files B (fs w) root) = false →
  ∃ evs,
    balayer_et_traiter_images B root w = (Ok tt, mkWorld (fs w) (trace w ++ evs))
    ∧ makedirs_calls evs = [] ∧ imwrite_calls evs = [].
Proof.
  intros H. rewrite balayer_et_traiter_images_spec.
  exists (run_trace B root (fs w)). split.
  - unfold run_result, run_fs, blocked_result. rewrite H.
    rewrite foldl_fs_step_none by done.
    by destruct (blocked (fs w) (repertoire_sortie root)).
  - by apply run_trace_quiet.
Qed.

End RunnerClaims.

(** ** The file system after the loop *)

Lemma fs_imwrite_lookup name c f :
  fs_imwrite name c f !! name
  = match f !! name with Some Dir => Some Dir | _ => Some (File c) end.
Proof.
  unfold fs_imwrite. destruct (f !! name) as [[|c']|] eqn:E;
    by rewrite ?lookup_insert_eq.
Qed.

Section After.

Context (B : Backend) (root : string) (f0 : gmap string node).

Lemma foldl_fs_step_same_inputs l : ∀ f,
  same_inputs f f0 → same_inputs (foldl (fs_step B root f0) f l) f0.
Proof.
  induction l as [|k l IH]; intros f Hf; [done|].
  cbn [foldl]. by apply IH, fs_step_same_inputs.
Qed.

Lemma foldl_fs_step_blocked l : ∀ f,
  blocked f (repertoire_sortie root) = false →
  blocked (foldl (fs_step B root f0) f l) (repertoire_sortie root) = false.
Proof.
  induction l as [|k l IH]; intros f Hf; [done|].
  cbn [foldl]. by apply IH, fs_step_blocked.
Qed.

(** Away from the output directory: directories stay, and a name holds what
    was last written there. *)
Lemma foldl_fs_step_lookup p l : ∀ f,
  p ≠ repertoire_sortie root →
  foldl (fs_step B root f0) f l !! p
  = match f !! p with
    | Some Dir => Some Dir
    | o => match last_write B root f0 l p with Some n => Some n | None => o end
    end.
Proof.
  induction l as [|k l IH]; intros f Hp.
  - cbn. by destruct (f !! p) as [[|c]|].
  - cbn [foldl last_write]. rewrite IH by done. unfold fs_step.
    destruct (texture B f0 k) as [t|].
    + destruct (decide (chemin_sortie root k = p)) as [<-|Hne].
      * rewrite fs_imwrite_lookup, fs_makedirs_lookup_ne by done.
        destruct (f !! chemin_sortie root k) as [[|c]|];
          by destruct (last_write B root f0 l (chemin_sortie root k)).
      * rewrite fs_imwrite_lookup_ne, fs_makedirs_lookup_ne by done.
        destruct (f !! p) as [[|c]|]; by destruct (last_write B root f0 l p).
    + destruct (f !! p) as [[|c]|]; by destruct (last_write B root f0 l p).
Qed.

(** The output directory is there as soon as one texture was written. *)
Lemma foldl_fs_step_lookup_dir l : ∀ f,
  blocked f (repertoire_sortie root) = false →
  foldl (fs_step B root f0) f l !! repertoire_sortie root
  = if some_texture B f0 l then Some Dir else f !! repertoire_sortie root.
Proof.
  induction l as [|k l IH]; intros f Hb; [done|].
  cbn [foldl some_texture existsb]. rewrite IH by (by apply fs_step_blocked).
  unfold fs_step. destruct (texture B f0 k) as [t|]; cbn [orb]; [|done].
  rewrite fs_imwrite_lookup_ne by (apply not_eq_sym, chemin_sortie_ne_repertoire).
  rewrite fs_makedirs_lookup by done.
  by case_match.
Qed.

(** Doing the loop again changes nothing. *)
Lemma foldl_fs_step_idemp l f :
  blocked f (repertoire_sortie root) = false →
  foldl (fs_step B root f0) (foldl (fs_step B root f0) f l) l
  = foldl (fs_step B root f0) f l.
Proof.
  intros Hb. apply map_eq. intros p.
  destruct (decide (p = repertoire_sortie root)) as [->|Hp].
  - rewrite !foldl_fs_step_lookup_dir by (done || by apply foldl_fs_step_blocked).
    by destruct (some_texture B f0 l).
  - rewrite (foldl_fs_step_lookup p l (foldl _ f l)) by done.
    rewrite (foldl_fs_step_lookup p l f) by done.
    destruct (f !! p) as [[|c]|]; by destruct (last_write B root f0 l p) as [[|c']|].
Qed.

Lemma last_write_None l p :
  (∀ k, k ∈ l → is_Some (texture B f0 k) → chemin_sortie root k ≠ p) →
  last_write B root f0 l p = None.
Proof.
  induction l as [|k l IH]; intros H; [done|].
  cbn [last_write]. rewrite IH by (intros k' Hk'; apply H; by right).
  destruct (texture B f0 k) as [t|] eqn:E; [|done].
  rewrite decide_False; [done|]. apply H; [by left | by rewrite E].
Qed.

Lemma last_write_NoDup l k t :
  NoDup (chemin_sortie root <$> l) → k ∈ l → texture B f0 k = Some t →
  last_write B root f0 l (chemin_sortie root k) = Some (File (imencode_png B t)).
Proof.
  induction l as [|x l IH]; intros Hnd Hk Ht; [by apply elem_of_nil in Hk|].
  rewrite fmap_cons in Hnd. apply NoDup_cons in Hnd as [Hx Hnd].
  cbn [last_write]. apply elem_of_cons in Hk as [->|Hk].
  - rewrite last_write_None.
    + by rewrite Ht, decide_True.
    + intros k' Hk' _ E. apply Hx. rewrite <- E. by apply list_elem_of_fmap_2.
  - by rewrite IH.
Qed.

End After.

(** ** Running twice *)

Section Again.

Context (B : Backend) (root : string).

Lemma some_texture_same f1 f l :
  Forall (λ k, is_input k = true) l → same_inputs f1 f →
  some_texture B f1 l = some_texture B f l.
Proof.
  intros Hl Hs. induction Hl as [|k l Hk Hl IH]; [done|].
  cbn [some_texture existsb]. fold (some_texture B f1 l) (some_texture B f l).
  by rewrite (texture_same B f1 f k), IH.
Qed.

Lemma blocked_trace_same f1 f l :
  Forall (λ k, is_input k = true) l → same_inputs f1 f →
  blocked_trace B root f1 l = blocked_trace B root f l.
Proof.
  intros Hl Hs. induction Hl as [|k l Hk Hl IH]; [done|].
  cbn [blocked_trace].
  by rewrite (texture_same B f1 f k), (texture_trace_same B f1 f k), IH.
Qed.

Lemma item_trace_same f1 f l :
  Forall (λ k, is_input k = true) l → same_inputs f1 f →
  map (item_trace B root f1) l = map (item_trace B root f) l.
Proof.
  intros Hl Hs. induction Hl as [|k l Hk Hl IH]; [done|].
  cbn [map]. unfold item_trace at 1 3.
  by rewrite (texture_same B f1 f k), (texture_trace_same B f1 f k), IH.
Qed.

Lemma foldl_fs_step_same f1 f l :
  Forall (λ k, is_input k = true) l → same_inputs f1 f →
  ∀ g, foldl (fs_step B root f1) g l = foldl (fs_step B root f) g l.
Proof.
  intros Hl Hs. induction Hl as [|k l Hk Hl IH]; intros g; [done|].
  cbn [foldl]. rewrite IH. unfold fs_step at 2 4.
  by rewrite (texture_same B f1 f k).
Qed.

Lemma run_fs_same_inputs f : same_inputs (run_fs B root f) f.
Proof.
  unfold run_fs. destruct (blocked f (repertoire_sortie root)).
  - apply same_inputs_refl.
  - apply foldl_fs_step_same_inputs, same_inputs_refl.
Qed.

Lemma run_fs_blocked f :
  blocked (run_fs B root f) (repertoire_sortie root) = blocked f (repertoire_sortie root).
Proof.
  unfold run_fs. destruct (blocked f (repertoire_sortie root)) eqn:Hb; [done|].
  by apply foldl_fs_step_blocked.
Qed.

(** A second run on what the first one left: same result, same events, and
    the file system does not move. *)
Lemma run_again f :
  run_result B root (run_fs B root f) = run_result B root f
  ∧ run_trace B root (run_fs B root f) = run_trace B root f
  ∧ run_fs B root (run_fs B root f) = run_fs B root f.
Proof.
  pose proof (run_fs_same_inputs f) as Hs.
  pose proof (run_fs_blocked f) as Hb.
  pose proof (image_files_ext B B _ _ root Hs) as Hl.
  pose proof (image_files_is_input B f root) as Hin.
  assert (run_fs B root f = if blocked f (repertoire_sortie root) then f
          else foldl (fs_step B root f) f (image_files B f root)) as Hf1 by done.
  remember (run_fs B root f) as f1 eqn:E. clear E.
  unfold run_result, run_trace, run_fs. rewrite Hl, Hb.
  destruct (blocked f (repertoire_sortie root)) eqn:Hbf.
  - by subst f1.
  - split; [done|]. split.
    + destruct (image_files B f root) as [|k l]; [done|].
      by rewrite (item_trace_same f1 f).
    + rewrite (foldl_fs_step_same f1 f) by done. rewrite Hf1.
      by apply foldl_fs_step_idemp.
Qed.

(** C8. Running the batch again on what a run left gives the same result,
    the same events and the same file system: every output file holds the
    same bytes.  The paths written are, in order, output paths of input
    files, at most one per input: the output path is a function of the
    input name, so a second run writes to the same paths. *)
Theorem C8_second_run_changes_nothing w :
  let r1 := balayer_et_traiter_images B root w in
  let r2 := balayer_et_traiter_images B root (snd r1) in
  fst r2 = fst r1
  ∧ fs (snd r2) = fs (snd r1)
  ∧ ∃ evs,
      trace (snd r1) = trace w ++ evs
      ∧ trace (snd r2) = trace (snd r1) ++ evs
      ∧ imwrite_calls evs `sublist_of` (chemin_sortie root <$> image_files B (fs w) root).
Proof.
  cbn zeta. rewrite (balayer_et_traiter_images_spec B root w). cbn [fst snd].
  rewrite balayer_et_traiter_images_spec. cbn [fst snd fs trace].
  destruct (run_again (fs w)) as (Hr & Ht & Hf).
  split; [done|]. split; [done|].
  exists (run_trace B root (fs w)). split; [done|]. split; [by rewrite Ht|].
  rewrite run_trace_imwrite. destruct (blocked (fs w) (repertoire_sortie root)).
  - apply sublist_nil_l.
  - apply fmap_sublist, sublist_filter.
Qed.

End Again.

(** ** One failing file among good ones *)

Lemma filter_all {A} (P : A → Prop) `{∀ x, Decision (P x)} (l : list A) :
  (∀ k, k ∈ l → P k) → filter P l = l ∧ filter (λ k, ¬ P k) l = [].
Proof.
  induction l as [|x l IH]; intros H'; [done|].
  destruct IH as [IH1 IH2]; [intros k Hk; apply H'; by right|].
  assert (P x) as Hx by (apply H'; by left).
  rewrite filter_cons_True by done. rewrite filter_cons_False by (intros Hn; by apply Hn).
  by rewrite IH1, IH2.
Qed.

Lemma filter_all_but_one {A} (P : A → Prop) `{∀ x, Decision (P x)} (l : list A) bad :
  NoDup l → bad ∈ l → ¬ P bad → (∀ k, k ∈ l → k ≠ bad → P k) →
  filter (λ k, ¬ P k) l = [bad] ∧ (length (filter P l) + 1 = length l)%nat.
Proof.
  induction l as [|x l IH]; intros Hnd Hbad Hnot Hall; [by apply elem_of_nil in Hbad|].
  apply NoDup_cons in Hnd as [Hx Hnd]. apply elem_of_cons in Hbad as [<-|Hbad].
  - destruct (filter_all P l) as [H1 H2].
    { intros k Hk. apply Hall; [by right|]. intros ->. by apply Hx. }
    rewrite filter_cons_True by done. rewrite filter_cons_False by done.
    rewrite H1, H2. split; [done|]. cbn. lia.
  - assert (x ≠ bad) as Hne by (intros ->; by apply Hx).
    assert (P x) as HPx by (apply Hall; [by left | done]).
    destruct IH as [IH1 IH2]; [done..| |].
    { intros k Hk. apply Hall. by right. }
    rewrite filter_cons_False by (intros Hn; by apply Hn).
    rewrite filter_cons_True by done.
    rewrite IH1. split; [done|]. cbn. lia.
Qed.

Lemma NoDup_fmap_inj_on {A C} (g : A → C) (l : list A) x y :
  NoDup (g <$> l) → x ∈ l → y ∈ l → g x = g y → x = y.
Proof.
  induction l as [|a l IH]; intros Hnd Hx Hy E; [by apply elem_of_nil in Hx|].
  rewrite fmap_cons in Hnd. apply NoDup_cons in Hnd as [Ha Hnd].
  apply elem_of_cons in Hx as [->|Hx]; apply elem_of_cons in Hy as [->|Hy].
  - done.
  - exfalso. apply Ha. rewrite E. by apply list_elem_of_fmap_2.
  - exfalso. apply Ha. rewrite <- E. by apply list_elem_of_fmap_2.
  - by apply IH.
Qed.

Section Isolation.

Context (B : Backend) (root : string).

Lemma run_trace_failure f :
  blocked f (repertoire_sortie root) = false →
  failure_lines (run_trace B root f)
  = filter (λ k, ¬ is_Some (texture B f k)) (image_files B f root).
Proof.
  intros Hb. unfold run_trace. rewrite Hb.
  destruct (image_files B f root) as [|k l]; [done|].
  change (failure_lines (EvGlob ?p :: EvPrint (MsgStart ?n) :: ?t)) with (failure_lines t).
  rewrite failure_lines_app, concat_item_trace_failure.
  cbn [failure_lines omap]. by rewrite app_nil_r.
Qed.

Lemma some_texture_true f l k :
  k ∈ l → is_Some (texture B f k) → some_texture B f l = true.
Proof.
  intros Hk [t Ht]. unfold some_texture. apply existsb_exists.
  exists k. split; [by apply list_elem_of_In|]. by rewrite Ht.
Qed.

(** C4 (amended).  Take a directory where the output directory can be made
    (no regular file stands in its place), where no output path is a
    directory, where the output names of the batch are pairwise distinct,
    and where one file [bad] of the batch yields no texture while every
    other file yields one.  Then the run returns normally; exactly one
    failure is printed, for [bad]; the files written are the output paths of
    the other files, one fewer than the batch; each holds the encoding of
    the texture of its own input, which is the same in any file system where
    that input is the same; nothing is written for [bad], and apart from the
    output directory and the paths written nothing changes. *)
Theorem C4_filter_failure_is_isolated w bad :
  let f := fs w in
  let l := image_files B f root in
  blocked f (repertoire_sortie root) = false →
  (∀ k, k ∈ l → f !! chemin_sortie root k ≠ Some Dir) →
  NoDup (chemin_sortie root <$> l) →
  bad ∈ l →
  texture B f bad = None →
  (∀ k, k ∈ l → k ≠ bad → is_Some (texture B f k)) →
  ∃ f' evs,
    balayer_et_traiter_images B root w = (Ok tt, mkWorld f' (trace w ++ evs))
    ∧ failure_lines evs = [bad]
    ∧ imwrite_calls evs = chemin_sortie root <$> filter (λ k, is_Some (texture B f k)) l
    ∧ NoDup (imwrite_calls evs)
    ∧ (length (imwrite_calls evs) + 1 = length l)%nat
    ∧ (∀ k, k ∈ l → k ≠ bad →
         ∃ t, texture B f k = Some t
              ∧ f' !! chemin_sortie root k = Some (File (imencode_png B t))
              ∧ (∀ f2, f2 !! k = f !! k → texture B f2 k = Some t))
    ∧ (chemin_sortie root bad ∉ imwrite_calls evs)
    ∧ (∀ p, p ≠ repertoire_sortie root → p ∉ imwrite_calls evs → f' !! p = f !! p).
Proof.
  intros f l Hb Hnodir Hnd Hbad Hnone Hgood.
  assert (NoDup l) as Hndl by (by apply NoDup_fmap_1 in Hnd).
  destruct (filter_all_but_one (λ k, is_Some (texture B f k)) l bad) as [Hfail Hlen];
    [done..| by rewrite Hnone; intros [? ?] | done |].
  exists (run_fs B root f), (run_trace B root f).
  assert (imwrite_calls (run_trace B root f)
          = chemin_sortie root <$> filter (λ k, is_Some (texture B f k)) l) as Hw.
  { rewrite run_trace_imwrite. fold l. by rewrite Hb. }
  assert (chemin_sortie root bad ∉ imwrite_calls (run_trace B root f)) as Hnotbad.
  { rewrite Hw. intros (k & E & Hk)%list_elem_of_fmap.
    apply list_elem_of_filter in Hk as [Hsome Hk].
    apply (NoDup_fmap_inj_on _ l bad k Hnd Hbad Hk) in E. subst k.
    rewrite Hnone in Hsome. by destruct Hsome. }
  split; [|split; [|split; [|split; [|split; [|split; [|split]]]]]].
  - rewrite balayer_et_traiter_images_spec. fold f. unfold run_result. by rewrite Hb.
  - rewrite run_trace_failure by done. exact Hfail.
  - exact Hw.
  - rewrite Hw. eapply sublist_NoDup; [exact Hnd | apply fmap_sublist, sublist_filter].
  - rewrite Hw, length_fmap. exact Hlen.
  - intros k Hk Hne. destruct (Hgood k Hk Hne) as [t Ht]. exists t.
    split; [done|]. split.
    + unfold run_fs. fold l. rewrite Hb.
      rewrite foldl_fs_step_lookup by apply chemin_sortie_ne_repertoire.
      rewrite (last_write_NoDup B root f l k t) by done.
      specialize (Hnodir k Hk). by destruct (f !! chemin_sortie root k) as [[|c]|].
    + intros f2 E. rewrite <- Ht. by apply filter_value_ext.
  - exact Hnotbad.
  - intros p Hp Hnot. unfold run_fs. fold l. rewrite Hb.
    rewrite foldl_fs_step_lookup by done.
    rewrite last_write_None; [by destruct (f !! p) as [[|c]|]|].
    intros k Hk Hsome <-. apply Hnot. rewrite Hw.
    apply list_elem_of_fmap_2, list_elem_of_filter. by split.
Qed.

End Isolation.

(** ** The Filter Step inside the run *)





Section StepInRun.

Context (B : Backend) (root : string).

Ltac run_step :=
  cbv [extraire_texture_gabor try_except bind cv2_imread cv2_cvtColor_BGR2GRAY
       cv2_getGaborKernel cv2_filter2D print emit read_fs lift_res ret fs trace fst snd].

Ltac step_cases f image_path ksize sigma theta lambd gamma :=
  destruct (imread_result B f image_path) as [[?img|]|?e]; [|reflexivity..];
  destruct (cvtColor_BGR2GRAY_result B img) as [?gray|?e]; [|reflexivity];
  destruct (getGaborKernel_result B (ksize, ksize) sigma theta lambd gamma psi0 cv2.CV_32F)
    as [?kernel|?e]; [|reflexivity];
  destruct (filter2D_result B gray cv2.CV_8UC3 kernel) as [?out|?e]; reflexivity.















End StepInRun.

(** ** Parameters *)


Example run_fs3_steps :
  gabor_calls (trace (snd (Demo.run Demo.backend Demo.fs3)))
  = [runner_kernel_call; runner_kernel_call]
  ∧ imwrite_images (trace (snd (Demo.run Demo.backend Demo.fs3)))
    = [Demo.out7; mkMat 1 1 cv2.CV_8UC1 [205]]
  ∧ reaches_kernel Demo.backend Demo.fs3 "d/frag_eroded_0003.ppm" = false.
Proof. repeat apply conj; vm_compute; reflexivity. Qed.

(** ** Output names *)

Lemma replace_plain stem :
  no_dot stem = true →
  Py.replace_from ".ppm" ".png" 0 (stem +:+ ".ppm") = stem +:+ ".png".
Proof.
  induction stem as [|c stem IH]; [done|].
  cbn [no_dot]. intros [Hc Hs]%andb_true_iff.
  rewrite !append_cons. cbn [Py.replace_from].
  change (Py.startswith ".ppm" (String c (stem +:+ ".ppm")))
    with (Ascii.eqb "." c && Py.startswith "ppm" (stem +:+ ".ppm")).
  rewrite Ascii.eqb_sym. destruct (Ascii.eqb c "."); [done|].
  cbn [andb]. by rewrite IH.
Qed.

(** For a fragment name with a single dot, the output name is the input
    name with the prefix added and the extension changed. *)
Lemma nom_sortie_plain stem :
  no_dot stem = true →
  nom_sortie ("frag_eroded_" +:+ stem +:+ ".ppm") = "texture_frag_eroded_" +:+ stem +:+ ".png".
Proof.
  intros H. unfold nom_sortie, Py.replace. rewrite !append_cons, !append_nil_l.
  cbn [Py.replace_from Py.startswith Ascii.eqb Bool.eqb andb].
  by rewrite (replace_plain stem H).
Qed.

Example nom_sortie_0007 : nom_sortie "frag_eroded_0007.ppm" = "texture_frag_eroded_0007.png".
Proof. reflexivity. Qed.

Example chemin_sortie_0007 :
  chemin_sortie "/data/frags" "/data/frags/frag_eroded_0007.ppm"
  = "/data/frags/textures_traitees/texture_frag_eroded_0007.png".
Proof. reflexivity. Qed.

(** C2. The output name is not the input name with only its extension
    changed: [str.replace] rewrites every [.ppm] of the name.  The fragment
    [frag_eroded_a.ppm.ppm] matches the pattern and is written as
    [texture_frag_eroded_a.png.png]; a second fragment
    [frag_eroded_a.png.ppm] is written to the same path. *)
Theorem C2_replace_rewrites_every_occurrence :
  fnmatch motif "frag_eroded_a.ppm.ppm" = true
  ∧ nom_sortie "frag_eroded_a.ppm.ppm" = "texture_frag_eroded_a.png.png"
  ∧ nom_sortie "frag_eroded_a.ppm.ppm" ≠ "texture_frag_eroded_a.ppm.png"
  ∧ imwrite_calls (trace (snd (Demo.run Demo.backend Demo.fs_clash)))
    = ["d/textures_traitees/texture_frag_eroded_a.png.png";
       "d/textures_traitees/texture_frag_eroded_a.png.png"].
Proof.
  split; [reflexivity|]. split; [reflexivity|]. split; [discriminate|].
  vm_compute. reflexivity.
Qed.

(** ** The script on the sample directories *)

Example join_ex : os_path.join "/data/frags" "frag_eroded_*.ppm" = "/data/frags/frag_eroded_*.ppm".
Proof. reflexivity. Qed.

Example join_slash_ex : os_path.join "/data/frags/" "textures_traitees" = "/data/frags/textures_traitees".
Proof. reflexivity. Qed.

Example join_empty_ex : os_path.join "" "textures_traitees" = "textures_traitees".
Proof. reflexivity. Qed.

Example basename_ex : os_path.basename "/data/frags/frag_eroded_0007.ppm" = "frag_eroded_0007.ppm".
Proof. reflexivity. Qed.

Example split_ex : os_path.split "/data/frags//frag_eroded_*.ppm" = ("/data/frags", "frag_eroded_*.ppm").
Proof. reflexivity. Qed.

Example fnmatch_ex : fnmatch motif "frag_eroded_0007.ppm" = true.
Proof. reflexivity. Qed.

Example fnmatch_png_ex : fnmatch motif "frag_eroded_0007.png" = false.
Proof. reflexivity. Qed.

Example sorted_ex :
  sorted ["d/frag_eroded_10.ppm"; "d/frag_eroded_2.ppm"; "d/frag_eroded_1.ppm"]
  = ["d/frag_eroded_1.ppm"; "d/frag_eroded_10.ppm"; "d/frag_eroded_2.ppm"].
Proof. vm_compute. reflexivity. Qed.

Example CV_8UC3_value : cv2.CV_8UC3 = 16 ∧ cv2.CV_MAT_DEPTH cv2.CV_8UC3 = cv2.CV_8U.
Proof. split; reflexivity. Qed.

(** The listing order of the system does not reach the run. *)
Example image_files_fs3 :
  image_files Demo.backend Demo.fs3 "d"
  = ["d/frag_eroded_0003.ppm"; "d/frag_eroded_0007.ppm"; "d/frag_eroded_0010.ppm"]
  ∧ glob_result Demo.backend Demo.fs3 "d/frag_eroded_*.ppm"
    = reverse (glob_result Demo.backend' Demo.fs3 "d/frag_eroded_*.ppm").
Proof. split; vm_compute; reflexivity. Qed.

(** A load that gives nothing, a load that raises, a conversion that raises
    and a convolution that raises: each time the step returns the base name
    and no image. *)
Example step_failures :
  fst (Demo.step Demo.fs_bad "d/frag_eroded_0001.ppm") = Ok ("frag_eroded_0001.ppm", None)
  ∧ fst (Demo.step Demo.fs_bad "d/frag_eroded_0002.ppm") = Ok ("frag_eroded_0002.ppm", None)
  ∧ fst (Demo.step Demo.fs_bad "d/frag_eroded_0003.ppm") = Ok ("frag_eroded_0003.ppm", None)
  ∧ fst (Demo.step Demo.fs_bad "d/frag_eroded_0004.ppm") = Ok ("frag_eroded_0004.ppm", None)
  ∧ fst (Demo.step Demo.fs_bad "d/missing.ppm") = Ok ("missing.ppm", None)
  ∧ failure_lines (trace (snd (Demo.step Demo.fs_bad "d/frag_eroded_0004.ppm")))
    = ["d/frag_eroded_0004.ppm"].
Proof. repeat apply conj; vm_compute; reflexivity. Qed.

Example run_fs3 :
  fst (Demo.run Demo.backend Demo.fs3) = Ok tt
  ∧ imread_calls (trace (snd (Demo.run Demo.backend Demo.fs3)))
    = ["d/frag_eroded_0003.ppm"; "d/frag_eroded_0007.ppm"; "d/frag_eroded_0010.ppm"]
  ∧ imwrite_calls (trace (snd (Demo.run Demo.backend Demo.fs3)))
    = ["d/textures_traitees/texture_frag_eroded_0007.png";
       "d/textures_traitees/texture_frag_eroded_0010.png"]
  ∧ fs (snd (Demo.run Demo.backend Demo.fs3)) !! "d/textures_traitees" = Some Dir
  ∧ fs (snd (Demo.run Demo.backend Demo.fs3))
      !! "d/textures_traitees/texture_frag_eroded_0007.png"
    = Some (File (Demo.encode Demo.out7)).
Proof. repeat apply conj; vm_compute; reflexivity. Qed.

(** Witness of C3: the fragment 0007 of the sample directory. *)
Lemma C3_output_shape_witness :
  Demo.step Demo.fs3 "d/frag_eroded_0007.ppm"
    = (Ok ("frag_eroded_0007.ppm", Some Demo.out7),
       snd (Demo.step Demo.fs3 "d/frag_eroded_0007.ppm"))
  ∧ ∃ img,
      imread_result Demo.backend Demo.fs3 "d/frag_eroded_0007.ppm" = Ok (Some img)
      ∧ rows Demo.out7 = rows img ∧ cols Demo.out7 = cols img
      ∧ cv2.channels Demo.out7 = 1 ∧ cv2.depth Demo.out7 = cv2.CV_8U
      ∧ mtype Demo.out7 = cv2.CV_8UC1.
Proof.
  split; [vm_compute; reflexivity|].
  apply (C3_output_shape Demo.backend "d/frag_eroded_0007.ppm" 31 5.0%float
           (np_pi / 4)%float 10.0%float 0.5%float (mkWorld Demo.fs3 [])
           "frag_eroded_0007.ppm" Demo.out7
           (snd (Demo.step Demo.fs3 "d/frag_eroded_0007.ppm"))).
  vm_compute; reflexivity.
Defined.

(** Witness of C6: a directory without fragment. *)
Lemma C6_empty_input_witness :
  glob_result Demo.backend Demo.fs_none (os_path.join "d" motif) = []
  ∧ Demo.run Demo.backend Demo.fs_none
    = (Ok tt,
       mkWorld Demo.fs_none [EvGlob "d/frag_eroded_*.ppm"; EvPrint (MsgNoImage "d")]).
Proof.
  split; [vm_compute; reflexivity|].
  apply (C6_empty_input Demo.backend "d" (mkWorld Demo.fs_none [])).
  vm_compute; reflexivity.
Defined.

(** Witness of C10: four fragments, none of which yields a texture. *)
Lemma C10_no_texture_no_output_witness :
  some_texture Demo.backend Demo.fs_bad (image_files Demo.backend Demo.fs_bad "d") = false
  ∧ length (image_files Demo.backend Demo.fs_bad "d") = 4%nat
  ∧ ∃ evs,
      Demo.run Demo.backend Demo.fs_bad = (Ok tt, mkWorld Demo.fs_bad ([] ++ evs))
      ∧ makedirs_calls evs = [] ∧ imwrite_calls evs = [].
Proof.
  split; [vm_compute; reflexivity|]. split; [vm_compute; reflexivity|].
  apply (C10_no_texture_no_output Demo.backend "d" (mkWorld Demo.fs_bad [])).
  vm_compute; reflexivity.
Defined.

(** Counterexample to C4 as stated: one corrupt fragment among two good
    ones, and a regular file where the output directory should go.  The
    [FileExistsError] of [os.makedirs] leaves the runner at the first good
    fragment: no output file, and the last fragment is never read. *)
Lemma C4_counterexample_makedirs_is_fatal :
  image_files Demo.backend Demo.fs_blocked "d"
  = ["d/frag_eroded_0003.ppm"; "d/frag_eroded_0007.ppm"; "d/frag_eroded_0010.ppm"]
  ∧ texture Demo.backend Demo.fs_blocked "d/frag_eroded_0003.ppm" = None
  ∧ is_Some (texture Demo.backend Demo.fs_blocked "d/frag_eroded_0007.ppm")
  ∧ is_Some (texture Demo.backend Demo.fs_blocked "d/frag_eroded_0010.ppm")
  ∧ fst (Demo.run Demo.backend Demo.fs_blocked) = Raise (FileExistsError "d/textures_traitees")
  ∧ fs (snd (Demo.run Demo.backend Demo.fs_blocked)) = Demo.fs_blocked
  ∧ imwrite_calls (trace (snd (Demo.run Demo.backend Demo.fs_blocked))) = []
  ∧ imread_calls (trace (snd (Demo.run Demo.backend Demo.fs_blocked)))
    = ["d/frag_eroded_0003.ppm"; "d/frag_eroded_0007.ppm"].
Proof.
  split; [vm_compute; reflexivity|]. split; [vm_compute; reflexivity|].
  split; [vm_compute; by eexists|]. split; [vm_compute; by eexists|].
  repeat apply conj; vm_compute; reflexivity.
Qed.

(** Witness of C4 (amended): the sample directory, whose fragment 0003 is
    corrupt. *)
Lemma C4_filter_failure_is_isolated_witness :
  blocked Demo.fs3 (repertoire_sortie "d") = false
  ∧ image_files Demo.backend Demo.fs3 "d"
    = ["d/frag_eroded_0003.ppm"; "d/frag_eroded_0007.ppm"; "d/frag_eroded_0010.ppm"]
  ∧ texture Demo.backend Demo.fs3 "d/frag_eroded_0003.ppm" = None
  ∧ ∃ f' evs,
      Demo.run Demo.backend Demo.fs3 = (Ok tt, mkWorld f' ([] ++ evs))
      ∧ failure_lines evs = ["d/frag_eroded_0003.ppm"]
      ∧ (length (imwrite_calls evs) + 1 = 3)%nat.
Proof.
  assert (image_files Demo.backend Demo.fs3 "d"
          = ["d/frag_eroded_0003.ppm"; "d/frag_eroded_0007.ppm"; "d/frag_eroded_0010.ppm"])
    as Hl by (vm_compute; reflexivity).
  split; [vm_compute; reflexivity|]. split; [exact Hl|].
  split; [vm_compute; reflexivity|].
  destruct (C4_filter_failure_is_isolated Demo.backend "d" (mkWorld Demo.fs3 [])
              "d/frag_eroded_0003.ppm") as (f' & evs & Hrun & Hfail & _ & _ & Hlen & _).
  - vm_compute; reflexivity.
  - cbn [fs]. rewrite Hl. intros k Hk.
    repeat (apply elem_of_cons in Hk as [->|Hk]); [vm_compute; discriminate..|].
    exfalso. revert Hk. apply not_elem_of_nil.
  - cbn [fs]. rewrite Hl. apply (bool_decide_unpack _). vm_compute. exact I.
  - cbn [fs]. rewrite Hl. apply list_elem_of_here.
  - vm_compute; reflexivity.
  - cbn [fs]. rewrite Hl. intros k Hk Hne.
    repeat (apply elem_of_cons in Hk as [->|Hk]);
      [exfalso; apply Hne; reflexivity
      | vm_compute; eexists; reflexivity
      | vm_compute; eexists; reflexivity |].
    exfalso. revert Hk. apply not_elem_of_nil.
  - exists f', evs. split; [exact Hrun|]. split; [exact Hfail|].
    cbn [fs] in Hlen. rewrite Hl in Hlen. exact Hlen.
Defined.

(** * Further properties of the script *)

(** ** The pattern and the output names *)

Lemma fnmatch_literal p pat n :
  Ascii.eqb p "*" = false → Ascii.eqb p "?" = false →
  fnmatch (String p pat) n = true → ∃ n', n = String p n' ∧ fnmatch pat n' = true.
Proof.
  intros Hs Hq. cbn [fnmatch]. rewrite Hs, Hq.
  destruct n as [|c n]; [done|]. cbn [orb].
  intros [Hc Hn]%andb_true_iff. apply Ascii.eqb_eq in Hc as <-. by exists n.
Qed.

Lemma fnmatch_literal_eq p pat n :
  Ascii.eqb p "*" = false →
  fnmatch (String p pat) (String p n) = fnmatch pat n.
Proof.
  intros Hs. cbn [fnmatch]. rewrite Hs, Ascii.eqb_refl. by rewrite orb_true_r.
Qed.

Lemma fnmatch_star pat n :
  fnmatch (String "*" pat) n
  = fnmatch pat n
    || match n with EmptyString => false | String _ n' => fnmatch (String "*" pat) n' end.
Proof. by destruct n. Qed.

Lemma fnmatch_empty n : fnmatch "" n = true → n = "".
Proof. by destruct n. Qed.

Lemma fnmatch_star_ppm m : fnmatch "*.ppm" m = true ↔ ∃ x, m = x +:+ ".ppm".
Proof.
  split.
  - induction m as [|c m IH]; rewrite fnmatch_star.
    + intros H. apply orb_true_iff in H as [H|H]; [|done].
      apply fnmatch_literal in H as (? & ? & _); done.
    + intros [H|H]%orb_true_iff.
      * exists "". rewrite append_nil_l.
        repeat (apply fnmatch_literal in H as (? & -> & H); [|done..]).
        by apply fnmatch_empty in H as ->.
      * destruct (IH H) as [x ->]. by exists (String c x).
  - intros [x ->]. induction x as [|c x IH]; [done|].
    rewrite append_cons, fnmatch_star, IH. apply orb_true_r.
Qed.

Lemma motif_selects_iff n :
  fnmatch motif n = true ↔ ∃ x, n = "frag_eroded_" +:+ x +:+ ".ppm".
Proof.
  unfold motif. split.
  - intros H.
    repeat (apply fnmatch_literal in H as (? & -> & H); [|done..]).
    apply fnmatch_star_ppm in H as [x ->]. by exists x.
  - intros [x ->]. rewrite !append_cons, append_nil_l.
    rewrite !fnmatch_literal_eq by done.
    apply fnmatch_star_ppm. by exists x.
Qed.

(** The names the runner's pattern selects are the names
    [frag_eroded_<x>.ppm], for any [x], the empty one included. *)
Theorem motif_selects n :
  fnmatch motif n = true ↔ ∃ x, n = "frag_eroded_" +:+ x +:+ ".ppm".
Proof. apply motif_selects_iff. Qed.

Lemma startswith_cons a pre b s :
  Py.startswith (String a pre) (String b s) = Ascii.eqb a b && Py.startswith pre s.
Proof. reflexivity. Qed.

Lemma replace_from_cons old new k c s :
  Py.replace_from old new k (String c s)
  = match k with
    | S k' => Py.replace_from old new k' s
    | O =>
        if Py.startswith old (String c s)
        then new +:+ Py.replace_from old new (Nat.pred (String.length old)) s
        else String c (Py.replace_from old new 0 s)
    end.
Proof. reflexivity. Qed.

(** A match of [.ppm] that starts before the last four characters of a name
    ending in [.ppm] ends before them. *)
Lemma startswith_ppm_length c pre :
  Py.startswith ".ppm" (String c (pre +:+ ".ppm")) = true → (3 ≤ String.length pre)%nat.
Proof.
  intros H.
  destruct pre as [|a [|b [|d pre]]]; [exfalso..|cbn; lia];
    rewrite ?append_cons, ?append_nil_l, !startswith_cons in H;
    repeat (apply andb_true_iff in H as [? H]);
    repeat match goal with
           | Hx : Ascii.eqb _ _ = true |- _ => apply Ascii.eqb_eq in Hx
           end;
    simplify_eq.
Qed.

Lemma replace_keeps_extension pre : ∀ k,
  (k ≤ String.length pre)%nat →
  ∃ out, Py.replace_from ".ppm" ".png" k (pre +:+ ".ppm") = out +:+ ".png".
Proof.
  induction pre as [|c pre IH]; intros k Hk.
  - assert (k = 0%nat) as -> by (cbn in Hk; lia). by exists "".
  - rewrite append_cons, replace_from_cons. destruct k as [|k].
    + destruct (Py.startswith ".ppm" (String c (pre +:+ ".ppm"))) eqn:E.
      * apply startswith_ppm_length in E.
        destruct (IH 3%nat E) as [out Hout]. exists (".png" +:+ out).
        change (Nat.pred (String.length ".ppm")) with 3%nat.
        by rewrite Hout, append_assoc.
      * destruct (IH 0%nat) as [out Hout]; [lia|]. exists (String c out).
        by rewrite Hout.
    + destruct (IH k) as [out Hout]; [cbn in Hk; lia|]. by exists out.
Qed.

(** Whatever the fragment, the output name starts with [texture_], keeps
    the stem prefix [frag_eroded_] and ends with the extension [.png]. *)
Theorem nom_sortie_extension n :
  fnmatch motif n = true →
  ∃ y, nom_sortie n = "texture_frag_eroded_" +:+ y +:+ ".png".
Proof.
  intros [x ->]%motif_selects_iff.
  destruct (replace_keeps_extension x 0%nat) as [out Hout]; [lia|].
  exists out. unfold nom_sortie, Py.replace. rewrite !append_cons, !append_nil_l.
  cbn [Py.replace_from Py.startswith Ascii.eqb Bool.eqb andb].
  by rewrite Hout.
Qed.

Lemma nom_sortie_extension_witness :
  fnmatch motif "frag_eroded_a.ppm.ppm" = true
  ∧ ∃ y, nom_sortie "frag_eroded_a.ppm.ppm" = "texture_frag_eroded_" +:+ y +:+ ".png".
Proof.
  split; [reflexivity|].
  apply (nom_sortie_extension "frag_eroded_a.ppm.ppm"). reflexivity.
Defined.

Lemma no_sep_literal_append a b : no_sep a = true → no_sep b = true → no_sep (a +:+ b) = true.
Proof. intros Ha Hb. by rewrite no_sep_append, Ha, Hb. Qed.

(** A fragment [frag_eroded_<stem>.ppm] whose stem has neither dot nor
    separator is selected by the pattern, and its texture goes to
    [<root>/textures_traitees/texture_frag_eroded_<stem>.png]: only the
    prefix and the extension differ from the input name. *)
Theorem plain_fragment_output root stem :
  no_dot stem = true → no_sep stem = true →
  let name := "frag_eroded_" +:+ stem +:+ ".ppm" in
  fnmatch motif name = true
  ∧ os_path.basename (os_path.join root name) = name
  ∧ chemin_sortie root (os_path.join root name)
    = os_path.join (os_path.join root "textures_traitees")
        ("texture_frag_eroded_" +:+ stem +:+ ".png").
Proof.
  intros Hdot Hsep name.
  assert (no_sep name = true) as Hname.
  { unfold name. apply no_sep_literal_append; [done|]. by apply no_sep_literal_append. }
  split; [apply motif_selects_iff; by exists stem|].
  split; [by apply basename_join|].
  unfold chemin_sortie, repertoire_sortie. rewrite basename_join by done.
  unfold name. by rewrite nom_sortie_plain.
Qed.

Lemma plain_fragment_output_witness :
  no_dot "0007" = true ∧ no_sep "0007" = true
  ∧ fnmatch motif "frag_eroded_0007.ppm" = true
  ∧ os_path.basename (os_path.join "/data" "frag_eroded_0007.ppm") = "frag_eroded_0007.ppm"
  ∧ chemin_sortie "/data" (os_path.join "/data" "frag_eroded_0007.ppm")
    = "/data/textures_traitees/texture_frag_eroded_0007.png".
Proof.
  split; [reflexivity|]. split; [reflexivity|].
  apply (plain_fragment_output "/data" "0007"); reflexivity.
Defined.

(** ** The Filter Step: what it touches and what it prints *)


Section FilterStepMore.

Context (B : Backend).

Ltac run_step :=
  cbv [extraire_texture_gabor try_except bind cv2_imread cv2_cvtColor_BGR2GRAY
       cv2_getGaborKernel cv2_filter2D print emit read_fs lift_res ret fs trace fst snd].

Ltac step_cases f image_path ksize sigma theta lambd gamma tac :=
  destruct (imread_result B f image_path) as [[?img|]|?e]; [|tac..];
  destruct (cvtColor_BGR2GRAY_result B img) as [?gray|?e]; [|tac];
  destruct (getGaborKernel_result B (ksize, ksize) sigma theta lambd gamma psi0 cv2.CV_32F)
    as [?kernel|?e]; [|tac];
  destruct (filter2D_result B gray cv2.CV_8UC3 kernel) as [?out|?e]; tac.

Lemma filter_trace_printed f p ksize sigma theta lambd gamma :
  printed (filter_trace B f p ksize sigma theta lambd gamma)
  = match filter_value B f p ksize sigma theta lambd gamma with
    | Some _ => []
    | None => printed (filter_trace B f p ksize sigma theta lambd gamma)
    end
  ∧ Forall is_failure_message (printed (filter_trace B f p ksize sigma theta lambd gamma))
  ∧ (length (gabor_calls (filter_trace B f p ksize sigma theta lambd gamma)) ≤ 1)%nat.
Proof.
  unfold filter_value, filter_trace. run_step.
  step_cases f p ksize sigma theta lambd gamma
    ltac:(split; [reflexivity|]; split; [by repeat constructor | cbn; lia]).
Qed.

(** The step reads its file once and calls neither [os.makedirs] nor
    [cv2.imwrite]; it prints one failure line when it returns no image and
    nothing at all when it returns one; it builds at most one kernel. *)
Theorem filter_step_effects image_path ksize sigma theta lambd gamma w :
  ∃ t evs,
    extraire_texture_gabor B image_path ksize sigma theta lambd gamma w
      = (Ok (os_path.basename image_path, t), mkWorld (fs w) (trace w ++ evs))
    ∧ imread_calls evs = [image_path]
    ∧ makedirs_calls evs = [] ∧ imwrite_calls evs = []
    ∧ failure_lines evs = match t with Some _ => [] | None => [image_path] end
    ∧ (is_Some t → printed evs = [])
    ∧ Forall is_failure_message (printed evs)
    ∧ (length (gabor_calls evs) ≤ 1)%nat.
Proof.
  eexists _, _. split; [apply extraire_texture_gabor_spec|].
  split; [apply filter_trace_imread|]. split; [apply filter_trace_makedirs|].
  split; [apply filter_trace_imwrite|]. split; [apply filter_trace_failure|].
  destruct (filter_trace_printed (fs w) image_path ksize sigma theta lambd gamma)
    as (H1 & H2 & H3).
  split; [|done]. intros [t Ht]. by rewrite Ht in H1.
Qed.

(** The step depends on the file system through its own file only: in two
    worlds that hold the same node at the path it returns the same pair and
    adds the same events. *)
Theorem filter_step_reads_only_its_file image_path ksize sigma theta lambd gamma w1 w2 :
  fs w1 !! image_path = fs w2 !! image_path →
  fst (extraire_texture_gabor B image_path ksize sigma theta lambd gamma w1)
  = fst (extraire_texture_gabor B image_path ksize sigma theta lambd gamma w2)
  ∧ ∃ evs,
      trace (snd (extraire_texture_gabor B image_path ksize sigma theta lambd gamma w1))
        = trace w1 ++ evs
      ∧ trace (snd (extraire_texture_gabor B image_path ksize sigma theta lambd gamma w2))
        = trace w2 ++ evs.
Proof.
  intros H. rewrite !extraire_texture_gabor_spec. cbn [fst snd trace].
  rewrite (filter_value_ext B (fs w1) (fs w2)) by done. split; [done|].
  eexists. split; [done|]. by rewrite (filter_trace_ext B (fs w1) (fs w2)).
Qed.

(** On a path that does not exist, or that names a directory, the step
    reads, prints the load error and returns no image; no other library call
    is made. *)
Theorem filter_step_missing_file image_path ksize sigma theta lambd gamma w :
  fs w !! image_path = None ∨ fs w !! image_path = Some Dir →
  extraire_texture_gabor B image_path ksize sigma theta lambd gamma w
  = (Ok (os_path.basename image_path, None),
     mkWorld (fs w) (trace w ++ [EvImread image_path; EvPrint (MsgLoadError image_path)])).
Proof.
  intros H. rewrite extraire_texture_gabor_spec.
  destruct w as [f tr]. cbn [fs trace] in *.
  assert (imread_result B f image_path = Ok None) as Hr.
  { unfold imread_result. by destruct H as [-> | ->]. }
  unfold filter_value, filter_trace. run_step. by rewrite Hr.
Qed.

End FilterStepMore.

Lemma filter_step_reads_only_its_file_witness :
  Demo.fs3 !! "d/frag_eroded_0007.ppm" = Demo.fs_blocked !! "d/frag_eroded_0007.ppm"
  ∧ fst (Demo.step Demo.fs3 "d/frag_eroded_0007.ppm")
    = fst (Demo.step Demo.fs_blocked "d/frag_eroded_0007.ppm").
Proof.
  split; [vm_compute; reflexivity|].
  apply (filter_step_reads_only_its_file Demo.backend "d/frag_eroded_0007.ppm" 31 5.0%float
           (np_pi / 4)%float 10.0%float 0.5%float
           (mkWorld Demo.fs3 []) (mkWorld Demo.fs_blocked [])).
  vm_compute; reflexivity.
Defined.

Lemma filter_step_missing_file_witness :
  (Demo.fs3 !! "d/missing.ppm" = None ∨ Demo.fs3 !! "d/missing.ppm" = Some Dir)
  ∧ Demo.step Demo.fs3 "d/missing.ppm"
    = (Ok ("missing.ppm", None),
       mkWorld Demo.fs3 [EvImread "d/missing.ppm"; EvPrint (MsgLoadError "d/missing.ppm")]).
Proof.
  split; [left; vm_compute; reflexivity|].
  apply (filter_step_missing_file Demo.backend "d/missing.ppm" 31 5.0%float
           (np_pi / 4)%float 10.0%float 0.5%float (mkWorld Demo.fs3 [])).
  left; vm_compute; reflexivity.
Defined.

(** ** The Batch Runner: where it stops, what it leaves *)

Section RunnerMore.

Context (B : Backend) (root : string).





(** After a run, a later run lists the same fragments: the output
    directory and the files written are never selected by the pattern. *)
Theorem run_keeps_listing B' w :
  image_files B' (fs (snd (balayer_et_traiter_images B root w))) root
  = image_files B (fs w) root
  ∧ is_input (repertoire_sortie root) = false
  ∧ ∀ k, is_input (chemin_sortie root k) = false.
Proof.
  rewrite balayer_et_traiter_images_spec. cbn [snd fs].
  split; [apply image_files_ext, run_fs_same_inputs|].
  split; [apply is_input_repertoire_sortie | apply is_input_chemin_sortie].
Qed.

Lemma filter_some_texture_nil f l :
  some_texture B f l = false → filter (λ k, is_Some (texture B f k)) l = [].
Proof.
  induction l as [|k l IH]; [done|].
  cbn [some_texture existsb]. intros [Hk Hs]%orb_false_iff.
  rewrite filter_cons_False; [by apply IH|].
  destruct (texture B f k); [done | by intros [? ?]].
Qed.

Lemma last_write_is_Some f0 l k t :
  k ∈ l → texture B f0 k = Some t →
  ∃ c, last_write B root f0 l (chemin_sortie root k) = Some (File c).
Proof.
  induction l as [|x l IH]; intros Hk Ht; [by apply elem_of_nil in Hk|].
  cbn [last_write]. apply elem_of_cons in Hk as [->|Hk].
  - destruct (last_write B root f0 l (chemin_sortie root x)) as [n|] eqn:E.
    + clear IH. revert E. induction l as [|y l IHl]; [done|].
      cbn [last_write]. destruct (last_write B root f0 l (chemin_sortie root x)); [auto|].
      destruct (texture B f0 y); [|done]. case_decide; [|done]. intros [= <-]. by eexists.
    + rewrite Ht, decide_True by done. by eexists.
  - destruct (IH Hk Ht) as [c ->]. by eexists.
Qed.

(** What a run changes and what it keeps.  Only the output directory and
    the paths given to [cv2.imwrite] may change: every other entry, the
    fragments among them, is what it was.  Nothing is removed, and a
    directory stays a directory.  Every path given to [cv2.imwrite] exists
    afterwards, and if one was given the output directory is a directory. *)
Theorem run_frame w :
  let w' := snd (balayer_et_traiter_images B root w) in
  ∃ evs,
    trace w' = trace w ++ evs
    ∧ (∀ p, p ≠ repertoire_sortie root → p ∉ imwrite_calls evs → fs w' !! p = fs w !! p)
    ∧ (∀ k, is_input k = true → fs w' !! k = fs w !! k)
    ∧ (∀ p, is_Some (fs w !! p) → is_Some (fs w' !! p))
    ∧ (∀ p, fs w !! p = Some Dir → fs w' !! p = Some Dir)
    ∧ (∀ p, p ∈ imwrite_calls evs → is_Some (fs w' !! p))
    ∧ (imwrite_calls evs ≠ [] → fs w' !! repertoire_sortie root = Some Dir).
Proof.
  cbn zeta. rewrite balayer_et_traiter_images_spec. cbn [snd fs trace].
  exists (run_trace B root (fs w)). split; [done|].
  split; [|split; [apply run_fs_same_inputs|]].
  { intros p Hp Hnot. rewrite run_trace_imwrite in Hnot. unfold run_fs.
    destruct (blocked (fs w) (repertoire_sortie root)); [done|].
    rewrite foldl_fs_step_lookup by done.
    rewrite last_write_None; [by destruct (fs w !! p) as [[|c]|]|].
    intros k Hk Hsome <-. apply Hnot.
    apply list_elem_of_fmap_2, list_elem_of_filter. by split. }
  rewrite run_trace_imwrite. unfold run_fs.
  destruct (blocked (fs w) (repertoire_sortie root)) eqn:Hb.
  { repeat split; try done. intros p Hp. by apply elem_of_nil in Hp. }
  assert (∀ p, fs w !! p = Some Dir →
            foldl (fs_step B root (fs w)) (fs w) (image_files B (fs w) root) !! p = Some Dir)
    as Hdir.
  { intros p Hp. destruct (decide (p = repertoire_sortie root)) as [->|Hne].
    - rewrite foldl_fs_step_lookup_dir by done. by case_match.
    - rewrite foldl_fs_step_lookup by done. by rewrite Hp. }
  split; [|split; [exact Hdir|split]].
  - intros p [n Hn]. destruct (decide (p = repertoire_sortie root)) as [->|Hne].
    + rewrite foldl_fs_step_lookup_dir by done. rewrite Hn. by case_match.
    + rewrite foldl_fs_step_lookup by done. rewrite Hn.
      destruct n; [done|]. by case_match.
  - intros p (k & -> & [Hsome Hk]%list_elem_of_filter)%list_elem_of_fmap.
    destruct Hsome as [t Ht].
    rewrite foldl_fs_step_lookup by apply chemin_sortie_ne_repertoire.
    destruct (last_write_is_Some (fs w) _ k t Hk Ht) as [c ->].
    by destruct (fs w !! chemin_sortie root k) as [[|c']|].
  - intros Hne. rewrite foldl_fs_step_lookup_dir by done.
    destruct (some_texture B (fs w) (image_files B (fs w) root)) eqn:Hs; [done|].
    exfalso. apply Hne. by rewrite filter_some_texture_nil.
Qed.

End RunnerMore.


Section Batches.

Context (B : Backend) (root : string).

(** A batch without failure.  Where the output directory can be made, no
    output path is a directory and the output names are pairwise distinct,
    if every fragment yields a texture then the run returns normally, prints
    no failure and writes one file per fragment, in the order of the list,
    each holding the encoding of the texture of its fragment. *)
Theorem all_good_batch w :
  let f := fs w in
  let l := image_files B f root in
  blocked f (repertoire_sortie root) = false →
  (∀ k, k ∈ l → f !! chemin_sortie root k ≠ Some Dir) →
  NoDup (chemin_sortie root <$> l) →
  (∀ k, k ∈ l → is_Some (texture B f k)) →
  ∃ f' evs,
    balayer_et_traiter_images B root w = (Ok tt, mkWorld f' (trace w ++ evs))
    ∧ failure_lines evs = []
    ∧ imwrite_calls evs = chemin_sortie root <$> l
    ∧ length (imwrite_calls evs) = length l
    ∧ (∀ k, k ∈ l →
         ∃ t, texture B f k = Some t
              ∧ f' !! chemin_sortie root k = Some (File (imencode_png B t))).
Proof.
  intros f l Hb Hnodir Hnd Hgood.
  destruct (filter_all (λ k, is_Some (texture B f k)) l Hgood) as [Hall Hnone].
  exists (run_fs B root f), (run_trace B root f).
  assert (imwrite_calls (run_trace B root f) = chemin_sortie root <$> l) as Hw.
  { rewrite run_trace_imwrite. fold l. by rewrite Hb, Hall. }
  split; [|split; [|split; [|split]]].
  - rewrite balayer_et_traiter_images_spec. fold f. unfold run_result. by rewrite Hb.
  - rewrite run_trace_failure by done. exact Hnone.
  - exact Hw.
  - by rewrite Hw, length_fmap.
  - intros k Hk. destruct (Hgood k Hk) as [t Ht]. exists t. split; [done|].
    unfold run_fs. fold l. rewrite Hb.
    rewrite foldl_fs_step_lookup by apply chemin_sortie_ne_repertoire.
    rewrite (last_write_NoDup B root f l k t) by done.
    specialize (Hnodir k Hk). by destruct (f !! chemin_sortie root k) as [[|c]|].
Qed.

Lemma item_trace_in_run_trace f k ev :
  blocked f (repertoire_sortie root) = false →
  k ∈ image_files B f root → ev ∈ item_trace B root f k → ev ∈ run_trace B root f.
Proof.
  intros Hb Hk Hev. unfold run_trace. rewrite Hb.
  destruct (image_files B f root) as [|x l] eqn:El; [by apply elem_of_nil in Hk|].
  do 2 apply list_elem_of_further. apply elem_of_app. left.
  apply list_elem_of_In, in_concat. exists (item_trace B root f k).
  split; [|by apply list_elem_of_In].
  apply in_map. by apply list_elem_of_In.
Qed.

(** The result of [cv2.imwrite] is not looked at.  When a directory stands
    at the output path of a fragment that yields a texture, the call is
    made, nothing is written, and the run still prints that the texture was
    saved and goes on to a normal return. *)
Theorem imwrite_on_directory_is_silent w k t :
  let f := fs w in
  blocked f (repertoire_sortie root) = false →
  k ∈ image_files B f root →
  texture B f k = Some t →
  f !! chemin_sortie root k = Some Dir →
  ∃ f' evs,
    balayer_et_traiter_images B root w = (Ok tt, mkWorld f' (trace w ++ evs))
    ∧ f' !! chemin_sortie root k = Some Dir
    ∧ EvImwrite (chemin_sortie root k) t ∈ evs
    ∧ EvPrint (MsgSaved (chemin_sortie root k)) ∈ evs.
Proof.
  intros f Hb Hk Ht Hdir.
  exists (run_fs B root f), (run_trace B root f).
  split; [|split; [|split]].
  - rewrite balayer_et_traiter_images_spec. fold f. unfold run_result. by rewrite Hb.
  - unfold run_fs. rewrite Hb.
    rewrite foldl_fs_step_lookup by apply chemin_sortie_ne_repertoire. by rewrite Hdir.
  - apply (item_trace_in_run_trace f k); [done..|].
    unfold item_trace. rewrite Ht. apply elem_of_app. right.
    do 2 apply list_elem_of_further. apply list_elem_of_here.
  - apply (item_trace_in_run_trace f k); [done..|].
    unfold item_trace. rewrite Ht. apply elem_of_app. right.
    do 3 apply list_elem_of_further. apply list_elem_of_here.
Qed.

End Batches.

Section Overwrite.

Context (B : Backend) (root : string).

Lemma last_write_app f0 a b p :
  last_write B root f0 (a ++ b) p
  = match last_write B root f0 b p with
    | Some n => Some n
    | None => last_write B root f0 a p
    end.
Proof.
  induction a as [|x a IH]; cbn [app last_write].
  - by destruct (last_write B root f0 b p).
  - rewrite IH. by destruct (last_write B root f0 b p).
Qed.

(** When several fragments have the same output path, the file holds the
    texture of the last of them in the order of the list: a fragment's
    texture is what the run leaves at its output path as soon as no later
    fragment with a texture is written to the same path. *)
Theorem last_writer_wins w l1 k l2 t :
  let f := fs w in
  image_files B f root = l1 ++ k :: l2 →
  blocked f (repertoire_sortie root) = false →
  f !! chemin_sortie root k ≠ Some Dir →
  texture B f k = Some t →
  (∀ k', k' ∈ l2 → is_Some (texture B f k') → chemin_sortie root k' ≠ chemin_sortie root k) →
  fs (snd (balayer_et_traiter_images B root w)) !! chemin_sortie root k
  = Some (File (imencode_png B t)).
Proof.
  intros f Hl Hb Hnodir Ht Hlater.
  rewrite balayer_et_traiter_images_spec. cbn [snd fs]. fold f.
  unfold run_fs. rewrite Hb, Hl.
  rewrite foldl_fs_step_lookup by apply chemin_sortie_ne_repertoire.
  rewrite last_write_app. cbn [last_write].
  rewrite (last_write_None B root f l2) by done.
  rewrite Ht, decide_True by done.
  by destruct (f !! chemin_sortie root k) as [[|c]|].
Qed.

End Overwrite.

Lemma last_writer_wins_witness :
  image_files Demo.backend Demo.fs_clash "d"
  = ["d/frag_eroded_a.png.ppm"] ++ "d/frag_eroded_a.ppm.ppm" :: []
  ∧ chemin_sortie "d" "d/frag_eroded_a.png.ppm" = chemin_sortie "d" "d/frag_eroded_a.ppm.ppm"
  ∧ fs (snd (Demo.run Demo.backend Demo.fs_clash)) !! chemin_sortie "d" "d/frag_eroded_a.ppm.ppm"
    = Some (File (Demo.encode (mkMat 1 1 cv2.CV_8UC1 [235]))).
Proof.
  split; [vm_compute; reflexivity|]. split; [vm_compute; reflexivity|].
  apply (last_writer_wins Demo.backend "d" (mkWorld Demo.fs_clash [])
           ["d/frag_eroded_a.png.ppm"] "d/frag_eroded_a.ppm.ppm" []
           (mkMat 1 1 cv2.CV_8UC1 [235])).
  - vm_compute; reflexivity.
  - vm_compute; reflexivity.
  - vm_compute; discriminate.
  - vm_compute; reflexivity.
  - intros k' Hk'. exfalso. revert Hk'. apply not_elem_of_nil.
Defined.

Lemma all_good_batch_witness :
  blocked Demo.fs_good (repertoire_sortie "d") = false
  ∧ image_files Demo.backend Demo.fs_good "d"
    = ["d/frag_eroded_0001.ppm"; "d/frag_eroded_0002.ppm"]
  ∧ ∃ f' evs,
      Demo.run Demo.backend Demo.fs_good = (Ok tt, mkWorld f' ([] ++ evs))
      ∧ failure_lines evs = []
      ∧ length (imwrite_calls evs) = 2%nat.
Proof.
  assert (image_files Demo.backend Demo.fs_good "d"
          = ["d/frag_eroded_0001.ppm"; "d/frag_eroded_0002.ppm"])
    as Hl by (vm_compute; reflexivity).
  split; [vm_compute; reflexivity|]. split; [exact Hl|].
  destruct (all_good_batch Demo.backend "d" (mkWorld Demo.fs_good []))
    as (f' & evs & Hrun & Hfail & _ & Hlen & _).
  - vm_compute; reflexivity.
  - cbn [fs]. rewrite Hl. intros k Hk.
    repeat (apply elem_of_cons in Hk as [->|Hk]); [vm_compute; discriminate..|].
    exfalso. revert Hk. apply not_elem_of_nil.
  - cbn [fs]. rewrite Hl. apply (bool_decide_unpack _). vm_compute. exact I.
  - cbn [fs]. rewrite Hl. intros k Hk.
    repeat (apply elem_of_cons in Hk as [->|Hk]);
      [vm_compute; eexists; reflexivity..|].
    exfalso. revert Hk. apply not_elem_of_nil.
  - exists f', evs. split; [exact Hrun|]. split; [exact Hfail|].
    cbn [fs] in Hlen. rewrite Hl in Hlen. exact Hlen.
Defined.

Lemma imwrite_on_directory_is_silent_witness :
  blocked Demo.fs_dir_at_output (repertoire_sortie "d") = false
  ∧ texture Demo.backend Demo.fs_dir_at_output "d/frag_eroded_0007.ppm" = Some Demo.out7
  ∧ Demo.fs_dir_at_output !! chemin_sortie "d" "d/frag_eroded_0007.ppm" = Some Dir
  ∧ ∃ f' evs,
      Demo.run Demo.backend Demo.fs_dir_at_output = (Ok tt, mkWorld f' ([] ++ evs))
      ∧ f' !! chemin_sortie "d" "d/frag_eroded_0007.ppm" = Some Dir
      ∧ EvPrint (MsgSaved (chemin_sortie "d" "d/frag_eroded_0007.ppm")) ∈ evs.
Proof.
  split; [vm_compute; reflexivity|]. split; [vm_compute; reflexivity|].
  split; [vm_compute; reflexivity|].
  destruct (imwrite_on_directory_is_silent Demo.backend "d"
              (mkWorld Demo.fs_dir_at_output []) "d/frag_eroded_0007.ppm" Demo.out7)
    as (f' & evs & Hrun & Hdir & _ & Hsaved).
  - vm_compute; reflexivity.
  - cbn [fs].
    assert (image_files Demo.backend Demo.fs_dir_at_output "d"
            = ["d/frag_eroded_0003.ppm"; "d/frag_eroded_0007.ppm"; "d/frag_eroded_0010.ppm"])
      as -> by (vm_compute; reflexivity).
    apply list_elem_of_further, list_elem_of_here.
  - vm_compute; reflexivity.
  - vm_compute; reflexivity.
  - exists f', evs. split; [exact Hrun|]. split; [exact Hdir | exact Hsaved].
Defined.
